(** * clearlinux-cli: the environment prober and the configuration catalog

    A shallow embedding of [main.go]: the three helper functions
    [getLanguageVersion], [getAvailableVersions] and [getLanguageEditors],
    and the control flow of [main] around them.

    Go strings are byte sequences; they are modelled by [string], whose
    characters are the bytes of the UTF-8 encoding.  A run-time panic (an
    index out of range) is an explicit outcome of the [Go] type, so that
    "cannot panic" is a statement that has to be proved. *)

From Stdlib Require Import Ascii String List ZArith Sorting.Sorted.
From stdpp Require Import base option list strings gmap.

Import ListNotations.
Local Open Scope string_scope.
Local Open Scope list_scope.

(** ** Outcomes of Go code: a value or a panic *)

Inductive Go (A : Type) : Type :=
| Ret (a : A)
| Panic (msg : string).
Arguments Ret {A} a.
Arguments Panic {A} msg.

Definition go_bind {A B} (m : Go A) (k : A -> Go B) : Go B :=
  match m with
  | Ret a => k a
  | Panic msg => Panic msg
  end.

(** [a[i]]: Go checks the bound and panics outside of it. *)
Definition index {A} (a : list A) (i : nat) : Go A :=
  match a !! i with
  | Some x => Ret x
  | None => Panic "runtime error: index out of range"
  end.

(** [versions[key]] on a Go map: the zero value when the key is absent. *)
Definition map_index {V} (zero : V) (m : gmap string V) (key : string) : V :=
  default zero (m !! key).

(** ** The part of package [strings] that the program calls *)

Module strings.

(** [strings.Split(s, sep)] for a separator of one byte, which is how the
    program calls it ([" "]).  The result has one more element than [s] has
    occurrences of [sep]. *)
Fixpoint Split (s : string) (sep : ascii) : list string :=
  match s with
  | EmptyString => [EmptyString]
  | String c rest =>
      if Ascii.eqb c sep then EmptyString :: Split rest sep
      else match Split rest sep with
           | piece :: pieces => String c piece :: pieces
           | [] => [String c EmptyString]
           end
  end.

Definition bytes (codes : list nat) : string :=
  string_of_list_ascii (map ascii_of_nat codes).

(** The UTF-8 encodings of the code points for which [unicode.IsSpace]
    holds: tab, LF, VT, FF, CR, space, U+0085, U+00A0, U+1680,
    U+2000..U+200A, U+2028, U+2029, U+202F, U+205F, U+3000.  A byte
    sequence that is not one of these decodes to a rune that is not a
    space (ill-formed and overlong sequences decode to [RuneError]). *)
Definition spaceRunes : list string :=
  map bytes
    [ [9]; [10]; [11]; [12]; [13]; [32];
      [194; 133]; [194; 160];
      [225; 154; 128];
      [226; 128; 128]; [226; 128; 129]; [226; 128; 130]; [226; 128; 131];
      [226; 128; 132]; [226; 128; 133]; [226; 128; 134]; [226; 128; 135];
      [226; 128; 136]; [226; 128; 137]; [226; 128; 138];
      [226; 128; 168]; [226; 128; 169]; [226; 128; 175];
      [226; 129; 159];
      [227; 128; 128] ].

(** Width in bytes of the space rune that [s] starts with; [0] if [s]
    does not start with one. *)
Definition leadingSpace (s : string) : nat :=
  match find (fun r => String.prefix r s) spaceRunes with
  | Some r => String.length r
  | None => 0
  end.

(** The same for the rune that ends a string, on the reversed string. *)
Definition trailingSpace (reversed : string) : nat :=
  match find (fun r => String.prefix (String.rev r) reversed) spaceRunes with
  | Some r => String.length r
  | None => 0
  end.

(** Drops runes from the front while [width] recognises one; [skip] counts
    the bytes of the current rune that are still to be dropped. *)
Fixpoint dropWhile (width : string -> nat) (skip : nat) (s : string) : string :=
  match s with
  | EmptyString => EmptyString
  | String _ rest =>
      match skip with
      | S k => dropWhile width k rest
      | O => match width s with
             | S k => dropWhile width k rest
             | O => s
             end
      end
  end.

Definition TrimLeftSpace (s : string) : string := dropWhile leadingSpace 0 s.

Definition TrimRightSpace (s : string) : string :=
  String.rev (dropWhile trailingSpace 0 (String.rev s)).

(** [strings.TrimSpace]: leading, then trailing white space is removed. *)
Definition TrimSpace (s : string) : string := TrimRightSpace (TrimLeftSpace s).

Fixpoint cutPrefix (s prefix : string) {struct prefix} : option string :=
  match prefix, s with
  | EmptyString, _ => Some s
  | String p prefix', String c s' =>
      if Ascii.eqb c p then cutPrefix s' prefix' else None
  | String _ _, EmptyString => None
  end.

(** [strings.TrimPrefix]: [s] without the leading [prefix], or [s] itself
    when it does not start with [prefix]. *)
Definition TrimPrefix (s prefix : string) : string :=
  match cutPrefix s prefix with
  | Some rest => rest
  | None => s
  end.

End strings.

(** ** Errors *)

(** A Go [error] value.  The program builds its own with [fmt.Errorf] (no
    wrapping verb is used); every other error comes out of package
    [os/exec] and is passed on as it is. *)
Inductive error : Type :=
| errorString (msg : string)
| execError (msg : string).

Module fmt.
(** [fmt.Errorf(format)] and [fmt.Errorf(format + "%s", arg)]. *)
Definition Errorf (format : string) (arg : string) : error :=
  errorString (format +:+ arg).
End fmt.

(** The three error kinds of the prober, as the values the code returns. *)
Definition UnsupportedLanguage (e : error) : Prop :=
  exists name, e = fmt.Errorf "unsupported language: " name.
Definition NotFound (e : error) : Prop :=
  e = fmt.Errorf "not found in PATH" "".
Definition ExecutionFailed (e : error) : Prop :=
  exists msg, e = execError msg.

(** ** The machine the program runs on, and package [os/exec] *)

(** What the operating system answers: the search-path lookup of a file
    name ([exec.LookPath]: a path and possibly an error, both can be set),
    and the run of a child process (what it wrote to its standard output
    and standard error, and the error of start or wait, if any). *)
Record Host : Type := {
  lookPath : string -> string * option string;
  execute : string -> list string -> string * string * option string
}.

(** The observable effects of the program: the child processes it started
    and the lines it printed. *)
Record World : Type := {
  started : list (string * list string);
  printed : list string
}.

Definition Prog (A : Type) : Type := World -> Go (A * World).

Definition ret {A} (a : A) : Prog A := fun w => Ret (a, w).
Definition bind {A B} (m : Prog A) (k : A -> Prog B) : Prog B :=
  fun w => match m w with
           | Ret (a, w') => k a w'
           | Panic msg => Panic msg
           end.
Definition lift {A} (m : Go A) : Prog A :=
  fun w => match m with
           | Ret a => Ret (a, w)
           | Panic msg => Panic msg
           end.

Notation "x <- m ;; k" := (bind m (fun x => k))
  (at level 100, m at next level, right associativity).

Module exec.

Record Cmd : Type := {
  Path : string;
  Args : list string;
  Err : option error
}.

Definition LookPath (h : Host) (file : string) : string * option error :=
  let '(path, err) := lookPath h file in (path, execError <$> err).

(** [exec.Command(name, arg...)] for a [name] without path separator (all
    five names of the program are): the name is looked up at once, a path
    that was found replaces [Path], an error is kept in [Err]. *)
Definition Command (h : Host) (name : string) (arg : list string) : Cmd :=
  let '(lp, err) := LookPath h name in
  {| Path := if String.eqb lp "" then name else lp;
     Args := name :: arg;
     Err := err |}.

(** [cmd.Run()] with [cmd.Stdout] and [cmd.Stderr] set to buffers: a
    command whose lookup failed is not started; otherwise the process is
    started and waited for.  Returns the contents of the standard-output
    buffer with the error. *)
Definition Run (h : Host) (c : Cmd) : Prog (string * option error) :=
  match Err c with
  | Some e => ret (EmptyString, Some e)
  | None =>
      fun w =>
        let '(out, _, err) := execute h (Path c) (Args c) in
        Ret ((out, execError <$> err),
             {| started := started w ++ [(Path c, Args c)];
                printed := printed w |})
  end.

End exec.

(** ** Packages [huh] and [lipgloss] *)

Module huh.

(** [huh.Option[string]]. *)
Record Option : Type := {
  Key : string;
  Value : string;
  selected : bool
}.

Definition NewOption (key value : string) : Option :=
  {| Key := key; Value := value; selected := false |}.

Definition Selected (o : Option) (b : bool) : Option :=
  {| Key := Key o; Value := Value o; selected := b |}.

End huh.

Module lipgloss.
(** A style is known by what [Render] makes of a string. *)
Record Style : Type := { Render : string -> string }.
End lipgloss.

(** ** The data of [main.go] *)

(** [Language]: language-specific settings and state. *)
Record Language : Type := {
  Type_ : string;
  Version : string;
  Editors : list string;
  CurrentVer : string;
  Path : string
}.

(** [DevSetup]: the configuration of the development environment. *)
Record DevSetup : Type := {
  Language_ : Language;
  CreateRepo : bool
}.

(** The zero value of [DevSetup], which [var setup DevSetup] starts from. *)
Definition zeroSetup : DevSetup :=
  {| Language_ := {| Type_ := ""; Version := ""; Editors := [];
                     CurrentVer := ""; Path := "" |};
     CreateRepo := false |}.

(** ** The environment prober *)

Section Prober.

Variable host : Host.

(** [getLanguageVersion]: checks if a language is installed and returns
    version, path and error. *)
Definition getLanguageVersion (language : string)
  : Prog (string * string * option error) :=
  language <- lift (index (strings.Split language " ") 0) ;;
  let cmd :=
    if String.eqb language "Python" then
      Some (exec.Command host "python3" ["--version"])
    else if String.eqb language "JavaScript" then
      Some (exec.Command host "node" ["--version"])
    else if String.eqb language "Go" then
      Some (exec.Command host "go" ["version"])
    else if String.eqb language "Rust" then
      Some (exec.Command host "rustc" ["--version"])
    else if String.eqb language "Java" then
      Some (exec.Command host "java" ["--version"])
    else None in
  match cmd with
  | None => ret ("", "", Some (fmt.Errorf "unsupported language: " language))
  | Some cmd =>
      let '(path, err) := exec.LookPath host (exec.Path cmd) in
      match err with
      | Some _ => ret ("", "", Some (fmt.Errorf "not found in PATH" ""))
      | None =>
          ran <- exec.Run host cmd ;;
          let '(out, err) := ran in
          match err with
          | Some err => ret ("", "", Some err)
          | None =>
              let version := strings.TrimSpace out in
              version <-
                (if String.eqb language "Python" then
                   let parts := strings.Split version " " in
                   if (2 <=? length parts)%nat then lift (index parts 1)
                   else ret version
                 else if String.eqb language "JavaScript" then
                   ret (strings.TrimPrefix version "v")
                 else ret version) ;;
              ret (version, path, None)
          end
      end
  end.

End Prober.

(** ** The configuration catalog *)

(** The table of [getAvailableVersions]. *)
Definition versions : gmap string (list string) :=
  <["Python" := ["3.12.1 (Latest)"; "3.11.7 (LTS)"; "3.10.13"; "3.9.18"] ]>
  (<["JavaScript" := ["20.11.0 (Latest)"; "18.19.0 (LTS)"; "16.20.2"; "14.21.3"] ]>
  (<["Go" := ["1.22.0 (Latest)"; "1.21.6 (LTS)"; "1.20.12"; "1.19.13"] ]>
  (<["Rust" := ["1.75.0 (Latest)"; "1.74.1"; "1.73.0"] ]>
  (<["Java" := ["21.0.2 (Latest)"; "17.0.10 (LTS)"; "11.0.22"] ]> ∅)))).

(** [getAvailableVersions]: the available versions for a language. *)
Definition getAvailableVersions (language : string) : Go (list string) :=
  go_bind (index (strings.Split language " ") 0) (fun language =>
  Ret (map_index [] versions language)).

(** The base editors, available for all languages. *)
Definition baseEditors : list huh.Option :=
  [ huh.Selected (huh.NewOption "VS Code 💻" "VS Code") true;
    huh.NewOption "Neovim 🔮" "Neovim";
    huh.NewOption "Sublime Text ✨" "Sublime Text" ].

(** [getLanguageEditors]: the recommended editors for a language. *)
Definition getLanguageEditors (language : string) : Go (list huh.Option) :=
  go_bind (index (strings.Split language " ") 0) (fun language =>
  if String.eqb language "Python" then
    Ret (baseEditors ++ [huh.NewOption "PyCharm 🐍" "PyCharm"])
  else if String.eqb language "Go" then
    Ret (baseEditors ++ [huh.NewOption "GoLand 🎯" "GoLand"])
  else if String.eqb language "JavaScript" then
    Ret (baseEditors ++ [huh.NewOption "WebStorm 🌐" "WebStorm"])
  else if String.eqb language "Java" then
    Ret (baseEditors ++ [huh.NewOption "IntelliJ IDEA ☕" "IntelliJ IDEA"])
  else Ret baseEditors).

(** ** The closures of [main] and its control flow *)

Definition setType (setup : DevSetup) (v : string) : DevSetup :=
  let l := Language_ setup in
  {| Language_ := {| Type_ := v; Version := Version l; Editors := Editors l;
                     CurrentVer := CurrentVer l; Path := Path l |};
     CreateRepo := CreateRepo setup |}.

Definition setVersion (setup : DevSetup) (v : string) : DevSetup :=
  let l := Language_ setup in
  {| Language_ := {| Type_ := Type_ l; Version := v; Editors := Editors l;
                     CurrentVer := CurrentVer l; Path := Path l |};
     CreateRepo := CreateRepo setup |}.

Definition setEditors (setup : DevSetup) (v : list string) : DevSetup :=
  let l := Language_ setup in
  {| Language_ := {| Type_ := Type_ l; Version := Version l; Editors := v;
                     CurrentVer := CurrentVer l; Path := Path l |};
     CreateRepo := CreateRepo setup |}.

(** [setup.Language.CurrentVer = ver; setup.Language.Path = path]. *)
Definition setFound (setup : DevSetup) (ver path : string) : DevSetup :=
  let l := Language_ setup in
  {| Language_ := {| Type_ := Type_ l; Version := Version l; Editors := Editors l;
                     CurrentVer := ver; Path := path |};
     CreateRepo := CreateRepo setup |}.

(** [err.Error()]. *)
Definition Error (e : error) : string :=
  match e with
  | errorString msg => msg
  | execError msg => msg
  end.

Definition newline : string := String (ascii_of_nat 10) EmptyString.

(** [fmt.Println]. *)
Definition Println (line : string) : Prog unit :=
  fun w => Ret (tt, {| started := started w; printed := printed w ++ [line] |}).

(** What the user does in the language form: the values that the language
    select writes to [setup.Language.Type] one after the other, the version
    picked, and the error [languageForm.Run()] returns ([None] for a form
    that was submitted). *)
Record LanguageInput : Type := {
  languages : list string;
  version : string;
  languageErr : option error
}.

(** The same for the editor form. *)
Record EditorInput : Type := {
  editors : list string;
  editorErr : option error
}.

Section Wizard.

Variable host : Host.
(** The four package-level styles, and the style of the summary box. *)
Variables highlight subtle headerStyle errorStyle boxStyle : lipgloss.Style.
(** [xstrings.EnglishJoin]. *)
Variable EnglishJoin : list string -> bool -> string.

(** The closure given to [TitleFunc] (lines 191-199).  It writes to the
    captured [setup] only when the probe returned no error. *)
Definition noteTitle (setup : DevSetup) : Prog (DevSetup * string) :=
  probed <- getLanguageVersion host (Type_ (Language_ setup)) ;;
  let '(ver, path, err) := probed in
  match err with
  | None =>
      ret (setFound setup ver path,
           lipgloss.Render highlight
             ("Found " +:+ Type_ (Language_ setup) +:+ " installation:"))
  | Some _ =>
      ret (setup, lipgloss.Render subtle "No existing installation found")
  end.

(** The closure given to [DescriptionFunc] (lines 200-207). *)
Definition noteDescription (setup : DevSetup) : string :=
  if String.eqb (CurrentVer (Language_ setup)) "" then
    lipgloss.Render subtle "You can proceed with a fresh installation"
  else
    "Version: " +:+ lipgloss.Render highlight (CurrentVer (Language_ setup))
    +:+ newline +:+ "Path: " +:+ lipgloss.Render subtle (Path (Language_ setup)).

(** The closure given to [OptionsFunc] of the version select (lines
    212-219): one option per version, key and value the label. *)
Definition versionOptions (setup : DevSetup) : Go (list huh.Option) :=
  go_bind (getAvailableVersions (Type_ (Language_ setup))) (fun versions =>
  Ret (map (fun version => huh.NewOption version version) versions)).

(** The closure given to [OptionsFunc] of the editor select (236-238). *)
Definition editorOptions (setup : DevSetup) : Go (list huh.Option) :=
  getLanguageEditors (Type_ (Language_ setup)).

(** [languageForm.Run()]: every value the select takes re-runs the
    closures bound to [&setup.Language.Type], here one after the other in
    the order of the source (the description is only rendered); at the end
    the picked version is stored and the form's error returned. *)
Fixpoint languageForm_Run (picks : list string) (version : string)
    (err : option error) (setup : DevSetup) : Prog (DevSetup * option error) :=
  match picks with
  | [] => ret (setVersion setup version, err)
  | pick :: picks =>
      titled <- noteTitle (setType setup pick) ;;
      let setup := fst titled in
      let description := noteDescription setup in
      _ <- lift (versionOptions setup) ;;
      languageForm_Run picks version err setup
  end.

(** [editorForm.Run()]. *)
Definition editorForm_Run (input : EditorInput) (setup : DevSetup)
  : Prog (DevSetup * option error) :=
  _ <- lift (editorOptions setup) ;;
  ret (setEditors setup (editors input), editorErr input).

(** The summary that [main] prints at its end (lines 263-292); writing to
    a [strings.Builder] returns no error. *)
Definition summary (setup : DevSetup) : string :=
  let l := Language_ setup in
  let sb :=
    lipgloss.Render headerStyle "DEV ENVIRONMENT SETUP COMPLETE"
    +:+ newline +:+ newline +:+ "Language: " +:+ lipgloss.Render highlight (Type_ l)
    +:+ newline +:+ "Version: " +:+ lipgloss.Render highlight (Version l)
    +:+ newline +:+ "Editors: "
    +:+ lipgloss.Render highlight (EnglishJoin (Editors l) true) in
  let sb :=
    if String.eqb (CurrentVer l) "" then sb
    else sb +:+ newline +:+ newline +:+ "Previous version: "
            +:+ lipgloss.Render subtle (CurrentVer l) in
  lipgloss.Render boxStyle sb.

(** [main], up to the rendering mode ([ACCESSIBLE]) and the two-second
    spinner, which change nothing that is modelled.  The result is the
    exit status of the process: [os.Exit(1)] ends it early. *)
Definition main (first : LanguageInput) (second : EditorInput) : Prog Z :=
  let setup := zeroSetup in
  ran <- languageForm_Run (languages first) (version first) (languageErr first) setup ;;
  let '(setup, err) := ran in
  match err with
  | Some err =>
      _ <- Println (lipgloss.Render errorStyle ("Error: " +:+ Error err)) ;;
      ret 1%Z
  | None =>
      ran <-
        (if negb (String.eqb (Type_ (Language_ setup)) "")
            && negb (String.eqb (Version (Language_ setup)) "")
         then editorForm_Run second setup
         else ret (setup, None)) ;;
      let '(setup, err) := ran in
      match err with
      | Some err =>
          _ <- Println (lipgloss.Render errorStyle ("Error: " +:+ Error err)) ;;
          ret 1%Z
      | None =>
          _ <- Println (summary setup) ;;
          ret 0%Z
      end
  end.

End Wizard.

(** ** Notions of the specification *)

(** The normalization step as all three functions write it (line 57, line
    134, line 148): [strings.Split(language, " ")[0]]. *)
Definition firstToken (language : string) : Go string :=
  index (strings.Split language " ") 0.

(** The normalized language name in the specification's words: the label
    with its decorative suffix, from the first space on, stripped. *)
Fixpoint normalize (label : string) : string :=
  match label with
  | EmptyString => EmptyString
  | String c rest =>
      if Ascii.eqb c " " then EmptyString else String c (normalize rest)
  end.

(** The fixed enumeration of supported languages. *)
Definition supported (name : string) : bool :=
  bool_decide (name ∈ ["Python"; "JavaScript"; "Go"; "Rust"; "Java"]).

(** The version-check invocation of each supported language. *)
Definition versionCheck (name : string) : option (string * list string) :=
  if String.eqb name "Python" then Some ("python3", ["--version"])
  else if String.eqb name "JavaScript" then Some ("node", ["--version"])
  else if String.eqb name "Go" then Some ("go", ["version"])
  else if String.eqb name "Rust" then Some ("rustc", ["--version"])
  else if String.eqb name "Java" then Some ("java", ["--version"])
  else None.

(** The languages that have an editor of their own. *)
Definition specialized (name : string) : bool :=
  bool_decide (name ∈ ["Python"; "Go"; "JavaScript"; "Java"]).

(** White-space separated tokens, as [strings.Fields] cuts them on ASCII
    white space: maximal runs of bytes that are not white space. *)
Definition asciiSpace (c : ascii) : bool :=
  bool_decide (nat_of_ascii c ∈ [9; 10; 11; 12; 13; 32]).

Fixpoint fieldsFrom (current : string) (s : string) : list string :=
  match s with
  | EmptyString =>
      if String.eqb current "" then [] else [String.rev current]
  | String c rest =>
      if asciiSpace c then
        (if String.eqb current "" then [] else [String.rev current])
        ++ fieldsFrom EmptyString rest
      else fieldsFrom (String c current) rest
  end.

Definition Fields (s : string) : list string := fieldsFrom EmptyString s.

(** Recency of a version label: the dotted number it starts with, read as
    a list of numbers and compared from the left. *)
Definition digit (c : ascii) : option nat :=
  let n := nat_of_ascii c in
  if (48 <=? n)%nat && (n <=? 57)%nat then Some (n - 48) else None.

Fixpoint number (acc : nat) (s : string) : nat :=
  match s with
  | EmptyString => acc
  | String c rest =>
      match digit c with
      | Some d => number (10 * acc + d) rest
      | None => acc
      end
  end.

Definition versionNumber (label : string) : list nat :=
  map (number 0) (strings.Split (normalize label) ".").

Fixpoint newerNumber (a b : list nat) : bool :=
  match a, b with
  | x :: a', y :: b' => (y <? x)%nat || ((x =? y)%nat && newerNumber a' b')
  | _ :: _, [] => true
  | [], _ => false
  end.

Definition newer (a b : string) : Prop :=
  newerNumber (versionNumber a) (versionNumber b) = true.

(** The language-specific treatment of the trimmed output, as a function
    of the normalized name (lines 88-96 read as a table). *)
Definition versionOf (name trimmed : string) : string :=
  if String.eqb name "Python" then
    match strings.Split trimmed " " with
    | _ :: second :: _ => second
    | _ => trimmed
    end
  else if String.eqb name "JavaScript" then strings.TrimPrefix trimmed "v"
  else trimmed.

(** A string without one leading "v": the rest after a first byte "v", the
    string itself when it does not start with "v". *)
Definition withoutLeadingV (s : string) : string :=
  match s with
  | String c rest => if Ascii.eqb c "v" then rest else s
  | EmptyString => s
  end.

(** The error of an unresolved executable. *)
Definition notFound : error := fmt.Errorf "not found in PATH" "".

(** The claim C1 as the specification words it: the version is the second
    white-space separated token of the trimmed output, or the trimmed
    output if there is none. *)
Definition python_version_is_second_field : Prop :=
  forall (h : Host) (label path out : string) (w w' : World),
    normalize label = "Python" ->
    exec.LookPath h (exec.Path (exec.Command h "python3" ["--version"])) = (path, None) ->
    exec.Run h (exec.Command h "python3" ["--version"]) w = Ret ((out, None), w') ->
    getLanguageVersion h label w =
      Ret ((match Fields (strings.TrimSpace out) with
            | _ :: second :: _ => second
            | _ => strings.TrimSpace out
            end, path, None), w').

(** [huh.NewOptions(values...)]: one option per value, the value printed
    as its key. *)
Definition NewOptions (values : list string) : list huh.Option :=
  map (fun value => huh.NewOption value value) values.

(** The options of the language select of [main] (lines 179-185). *)
Definition languageMenu : list huh.Option :=
  NewOptions ["Python 🐍"; "JavaScript 💫"; "Go 🚀"; "Rust 🦀"; "Java ☕"].

(** The five invocations that the first [switch] of [getLanguageVersion]
    can build: name and arguments. *)
Definition versionChecks : list (string * list string) :=
  [ ("python3", ["--version"]); ("node", ["--version"]); ("go", ["version"]);
    ("rustc", ["--version"]); ("java", ["--version"]) ].

(** ** Sample machines *)

(** A machine without any toolchain: no name resolves, nothing starts. *)
Definition bareHost : Host :=
  {| lookPath := fun file =>
       ("", Some ("exec: " +:+ file +:+ ": executable file not found in $PATH"));
     execute := fun _ _ => ("", "", Some "fork/exec: no such file or directory") |}.

(** A machine on which every name resolves under [/usr/bin] and every
    command prints [output] and exits with status 0. *)
Definition installedHost (output : string) : Host :=
  {| lookPath := fun file =>
       if String.prefix "/" file then (file, None)
       else ("/usr/bin/" +:+ file, None);
     execute := fun _ _ => (output, "", None) |}.

(** A machine on which every name resolves and every command fails. *)
Definition brokenHost : Host :=
  {| lookPath := fun file =>
       if String.prefix "/" file then (file, None)
       else ("/usr/bin/" +:+ file, None);
     execute := fun _ _ => ("", "cannot run", Some "exit status 1") |}.

(** A machine that has [python3] under [/usr/bin] and no other toolchain;
    [python3 --version] prints "Python 3.11.2" and a line end. *)
Definition pythonHost : Host :=
  {| lookPath := fun file =>
       if String.eqb file "python3" || String.eqb file "/usr/bin/python3"
       then ("/usr/bin/python3", None)
       else ("", Some ("exec: " +:+ file +:+ ": executable file not found in $PATH"));
     execute := fun _ _ => ("Python 3.11.2" +:+ newline, "", None) |}.

(** A join of words for the sample runs. *)
Definition commaJoin (words : list string) (oxfordComma : bool) : string :=
  String.concat ", " words.

Definition emptyWorld : World := {| started := []; printed := [] |}.

Definition plain : lipgloss.Style := {| lipgloss.Render := fun s => s |}.

(** * Properties *)

(** ** Splitting and normalization *)

Lemma Split_cons (s : string) (sep : ascii) :
  exists piece pieces, strings.Split s sep = piece :: pieces.
Proof.
  induction s as [|c rest IH]; simpl.
  - eauto.
  - destruct (Ascii.eqb c sep); [eauto|].
    destruct IH as (piece & pieces & ->). eauto.
Qed.

Lemma Split_normalize (label : string) :
  exists pieces, strings.Split label " " = normalize label :: pieces.
Proof.
  induction label as [|c rest IH]; simpl.
  - eauto.
  - destruct (Ascii.eqb c " "); [eauto|].
    destruct IH as (pieces & ->). eauto.
Qed.

Lemma firstToken_normalize (label : string) :
  firstToken label = Ret (normalize label).
Proof.
  unfold firstToken, index.
  destruct (Split_normalize label) as (pieces & ->). reflexivity.
Qed.

Lemma normalize_idempotent (label : string) :
  normalize (normalize label) = normalize label.
Proof.
  induction label as [|c rest IH]; simpl; [reflexivity|].
  destruct (Ascii.eqb c " ") eqn:E; simpl; [reflexivity|].
  rewrite E, IH. reflexivity.
Qed.

(** ** The three functions in terms of the normalized name *)

Lemma getAvailableVersions_eq (label : string) :
  getAvailableVersions label = Ret (map_index [] versions (normalize label)).
Proof.
  unfold getAvailableVersions. fold (firstToken label).
  rewrite firstToken_normalize. reflexivity.
Qed.

Lemma getLanguageEditors_eq (label : string) :
  getLanguageEditors label =
  Ret (if specialized (normalize label)
       then baseEditors ++
              [if String.eqb (normalize label) "Python" then
                 huh.NewOption "PyCharm 🐍" "PyCharm"
               else if String.eqb (normalize label) "Go" then
                 huh.NewOption "GoLand 🎯" "GoLand"
               else if String.eqb (normalize label) "JavaScript" then
                 huh.NewOption "WebStorm 🌐" "WebStorm"
               else huh.NewOption "IntelliJ IDEA ☕" "IntelliJ IDEA"]
       else baseEditors).
Proof.
  unfold getLanguageEditors. fold (firstToken label).
  rewrite firstToken_normalize. cbn [go_bind].
  unfold specialized. generalize (normalize label) as name. intros name.
  destruct (String.eqb_spec name "Python") as [->|HPython]; [reflexivity|].
  destruct (String.eqb_spec name "Go") as [->|HGo]; [reflexivity|].
  destruct (String.eqb_spec name "JavaScript") as [->|HJavaScript]; [reflexivity|].
  destruct (String.eqb_spec name "Java") as [->|HJava]; [reflexivity|].
  rewrite bool_decide_eq_false_2; [reflexivity|].
  rewrite !elem_of_cons, elem_of_nil. intuition congruence.
Qed.

Lemma index_second {A} (a b : A) (l : list A) : index (a :: b :: l) 1 = Ret b.
Proof. reflexivity. Qed.

Lemma getLanguageVersion_eq (h : Host) (label : string) (w : World) :
  getLanguageVersion h label w =
  match versionCheck (normalize label) with
  | None =>
      Ret (("", "", Some (fmt.Errorf "unsupported language: " (normalize label))), w)
  | Some (name, args) =>
      let cmd := exec.Command h name args in
      match exec.LookPath h (exec.Path cmd) with
      | (_, Some _) => Ret (("", "", Some notFound), w)
      | (path, None) =>
          match exec.Run h cmd w with
          | Ret ((_, Some e), w') => Ret (("", "", Some e), w')
          | Ret ((out, None), w') =>
              Ret ((versionOf (normalize label) (strings.TrimSpace out), path, None), w')
          | Panic msg => Panic msg
          end
      end
  end.
Proof.
  unfold getLanguageVersion. fold (firstToken label).
  rewrite firstToken_normalize.
  unfold bind at 1. unfold lift at 1.
  unfold versionCheck, versionOf.
  generalize (normalize label) as name. intros name.
  assert (Hpost : forall (cmd : exec.Cmd),
    (let '(path, err) := exec.LookPath h (exec.Path cmd) in
     match err with
     | Some _ => ret ("", "", Some (fmt.Errorf "not found in PATH" ""))
     | None =>
         ran <- exec.Run h cmd ;;
         let '(out, err0) := ran in
         match err0 with
         | Some err1 => ret ("", "", Some err1)
         | None =>
             version <-
               (if String.eqb name "Python" then
                  let parts := strings.Split (strings.TrimSpace out) " " in
                  if (2 <=? length parts)%nat then lift (index parts 1)
                  else ret (strings.TrimSpace out)
                else if String.eqb name "JavaScript" then
                  ret (strings.TrimPrefix (strings.TrimSpace out) "v")
                else ret (strings.TrimSpace out)) ;;
             ret (version, path, None)
         end
     end) w =
    match exec.LookPath h (exec.Path cmd) with
    | (_, Some _) => Ret (("", "", Some notFound), w)
    | (path, None) =>
        match exec.Run h cmd w with
        | Ret ((_, Some e), w') => Ret (("", "", Some e), w')
        | Ret ((out, None), w') =>
            Ret ((if String.eqb name "Python" then
                    match strings.Split (strings.TrimSpace out) " " with
                    | _ :: second :: _ => second
                    | _ => strings.TrimSpace out
                    end
                  else if String.eqb name "JavaScript" then
                    strings.TrimPrefix (strings.TrimSpace out) "v"
                  else strings.TrimSpace out, path, None), w')
        | Panic msg => Panic msg
        end
    end).
  { intros cmd.
    destruct (exec.LookPath h (exec.Path cmd)) as [path [e|]]; [reflexivity|].
    unfold bind at 1.
    destruct (exec.Run h cmd w) as [[[out [e|]] w']|msg]; try reflexivity.
    destruct (String.eqb name "Python").
    - cbn zeta.
      destruct (strings.Split (strings.TrimSpace out) " ") as [|a [|b l]];
        reflexivity.
    - destruct (String.eqb name "JavaScript"); reflexivity. }
  repeat (destruct (String.eqb name _); [apply Hpost|]).
  reflexivity.
Qed.
Example Split_label : strings.Split "Python 🐍" " " = ["Python"; "🐍"].
Proof. reflexivity. Qed.

Example Split_empty : strings.Split "" " " = [""].
Proof. reflexivity. Qed.

Example firstToken_of_empty : firstToken "" = Ret "".
Proof. reflexivity. Qed.

Example firstToken_after_leading_space : firstToken " Python" = Ret "".
Proof. reflexivity. Qed.

Example Split_two_spaces : strings.Split "a  b " " " = ["a"; ""; "b"; ""].
Proof. reflexivity. Qed.

Example TrimSpace_newline :
  strings.TrimSpace (" Python 3.11.2" +:+ strings.bytes [13; 10]) = "Python 3.11.2".
Proof. reflexivity. Qed.

Example TrimSpace_nbsp :
  strings.TrimSpace (strings.bytes [194; 160] +:+ "go" +:+ strings.bytes [226; 128; 168; 9])
  = "go".
Proof. reflexivity. Qed.

Example TrimPrefix_once : strings.TrimPrefix "vv1" "v" = "v1".
Proof. reflexivity. Qed.


(** ** Totality *)

Lemma Run_returns (h : Host) (c : exec.Cmd) (w : World) :
  exists out err w', exec.Run h c w = Ret ((out, err), w').
Proof.
  unfold exec.Run. destruct (exec.Err c) as [e|].
  - unfold ret. eauto.
  - destruct (execute h (exec.Path c) (exec.Args c)) as [[out errout] err]. eauto.
Qed.

Lemma getLanguageVersion_returns (h : Host) (label : string) (w : World) :
  exists version path err w',
    getLanguageVersion h label w = Ret ((version, path, err), w').
Proof.
  rewrite getLanguageVersion_eq.
  destruct (versionCheck (normalize label)) as [[name args]|]; [|eauto].
  cbn zeta.
  destruct (exec.LookPath h (exec.Path (exec.Command h name args)))
    as [path [e|]]; [eauto|].
  destruct (Run_returns h (exec.Command h name args) w) as (out & err & w' & ->).
  destruct err; eauto.
Qed.

(** C10.  Normalization is total: splitting any string at spaces yields at
    least one piece, so taking piece 0 cannot panic, and the probe, the
    version catalog and the editor catalog return on every label (and, for
    the probe, on every machine and in every state). *)
Theorem normalization_total (label : string) :
  strings.Split label " " <> [] /\
  (exists name, firstToken label = Ret name) /\
  (exists versions, getAvailableVersions label = Ret versions) /\
  (exists options, getLanguageEditors label = Ret options) /\
  (forall (h : Host) (w : World), exists result w',
      getLanguageVersion h label w = Ret (result, w')).
Proof.
  split; [|split; [|split; [|split]]].
  - destruct (Split_cons label " ") as (piece & pieces & ->). discriminate.
  - rewrite firstToken_normalize. eauto.
  - rewrite getAvailableVersions_eq. eauto.
  - rewrite getLanguageEditors_eq. eauto.
  - intros h w.
    destruct (getLanguageVersion_returns h label w) as (v & p & e & w' & ->).
    eauto.
Qed.

(** C8.  Normalization is idempotent: normalizing a normalized name gives
    it back, for the step as the code writes it and for the specification's
    [normalize] alike. *)
Theorem normalization_idempotent (x : string) :
  go_bind (firstToken x) firstToken = firstToken x /\
  normalize (normalize x) = normalize x.
Proof.
  split; [|apply normalize_idempotent].
  rewrite firstToken_normalize. cbn [go_bind].
  rewrite firstToken_normalize, normalize_idempotent. reflexivity.
Qed.

(** ** One normalized name for the three operations *)

Lemma versionCheck_supported (name : string) :
  supported name = true <-> exists command, versionCheck name = Some command.
Proof.
  unfold supported, versionCheck.
  destruct (String.eqb_spec name "Python") as [->|HPython]; [split; eauto|].
  destruct (String.eqb_spec name "JavaScript") as [->|HJavaScript]; [split; eauto|].
  destruct (String.eqb_spec name "Go") as [->|HGo]; [split; eauto|].
  destruct (String.eqb_spec name "Rust") as [->|HRust]; [split; eauto|].
  destruct (String.eqb_spec name "Java") as [->|HJava]; [split; eauto|].
  rewrite bool_decide_eq_false_2.
  - split; [discriminate|]. intros [command Hc]. discriminate.
  - rewrite !elem_of_cons, elem_of_nil. intuition congruence.
Qed.

Lemma versionCheck_unsupported (name : string) :
  supported name = false -> versionCheck name = None.
Proof.
  intros Hnot. destruct (versionCheck name) as [command|] eqn:E; [|reflexivity].
  assert (supported name = true) by (apply versionCheck_supported; eauto).
  congruence.
Qed.

Lemma supported_cases (name : string) :
  supported name = true ->
  name = "Python" \/ name = "JavaScript" \/ name = "Go" \/ name = "Rust"
  \/ name = "Java".
Proof.
  unfold supported. intros H. apply bool_decide_eq_true_1 in H.
  rewrite !elem_of_cons, elem_of_nil in H. intuition.
Qed.

Lemma versions_unsupported (name : string) :
  supported name = false -> map_index [] versions name = [].
Proof.
  unfold supported. intros H. apply bool_decide_eq_false_1 in H.
  rewrite !elem_of_cons, elem_of_nil in H.
  unfold map_index, versions.
  rewrite !lookup_insert_ne, lookup_empty by intuition congruence.
  reflexivity.
Qed.

Lemma versions_supported (name : string) :
  supported name = true -> map_index [] versions name <> [].
Proof.
  intros H. apply supported_cases in H.
  destruct H as [->|[->|[->|[->| ->]]]]; vm_compute; discriminate.
Qed.

(** C7.  The probe, the version catalog and the editor catalog key off the
    same normalized name: the step each of them starts with yields
    [normalize label], each gives on a label what it gives on the
    normalized name, two labels with one normalized name are treated
    alike by all three, and the probe knows a language exactly when the
    version catalog has an entry for it. *)
Theorem operations_share_normalization (h : Host) (label : string) (w : World) :
  firstToken label = Ret (normalize label) /\
  getLanguageVersion h label w = getLanguageVersion h (normalize label) w /\
  getAvailableVersions label = getAvailableVersions (normalize label) /\
  getLanguageEditors label = getLanguageEditors (normalize label) /\
  (forall other : string,
      normalize other = normalize label ->
      getLanguageVersion h other w = getLanguageVersion h label w /\
      getAvailableVersions other = getAvailableVersions label /\
      getLanguageEditors other = getLanguageEditors label) /\
  (versionCheck (normalize label) = None <-> getAvailableVersions label = Ret []).
Proof.
  split; [apply firstToken_normalize|].
  split; [rewrite !getLanguageVersion_eq, normalize_idempotent; reflexivity|].
  split; [rewrite !getAvailableVersions_eq, normalize_idempotent; reflexivity|].
  split; [rewrite !getLanguageEditors_eq, normalize_idempotent; reflexivity|].
  split.
  - intros other Hsame.
    rewrite !getLanguageVersion_eq, !getAvailableVersions_eq,
      !getLanguageEditors_eq, Hsame.
    auto.
  - rewrite getAvailableVersions_eq.
    destruct (supported (normalize label)) eqn:E.
    + pose proof (versions_supported _ E) as Hne.
      apply versionCheck_supported in E. destruct E as [command ->].
      split; [discriminate|]. intros Heq. congruence.
    + rewrite versions_unsupported, versionCheck_unsupported by assumption.
      split; reflexivity.
Qed.

Lemma operations_share_normalization_witness :
  normalize "Python (system)" = normalize "Python 🐍" /\
  getLanguageVersion (installedHost "Python 3.11.2") "Python (system)" emptyWorld
  = getLanguageVersion (installedHost "Python 3.11.2") "Python 🐍" emptyWorld /\
  getAvailableVersions "Python (system)" = getAvailableVersions "Python 🐍" /\
  getLanguageEditors "Python (system)" = getLanguageEditors "Python 🐍".
Proof.
  split; [reflexivity|].
  apply (operations_share_normalization
           (installedHost "Python 3.11.2") "Python 🐍" emptyWorld).
  reflexivity.
Defined.

(** ** The error paths of the probe *)

(** C9.  A label whose normalized name is none of the five languages makes
    the probe fail with the error "unsupported language: " followed by the
    normalized name, with empty version and path (and nothing is started:
    the state is returned as it was). *)
Theorem unsupported_language_error (h : Host) (label : string) (w : World) :
  supported (normalize label) = false ->
  getLanguageVersion h label w =
    Ret (("", "", Some (errorString ("unsupported language: " +:+ normalize label))), w)
  /\ UnsupportedLanguage (errorString ("unsupported language: " +:+ normalize label)).
Proof.
  intros Hnot. split.
  - rewrite getLanguageVersion_eq, (versionCheck_unsupported _ Hnot). reflexivity.
  - exists (normalize label). reflexivity.
Qed.

Lemma unsupported_language_error_witness :
  getLanguageVersion bareHost "Ruby 💎" emptyWorld =
    Ret (("", "", Some (errorString "unsupported language: Ruby")), emptyWorld)
  /\ UnsupportedLanguage (errorString "unsupported language: Ruby").
Proof.
  apply (unsupported_language_error bareHost "Ruby 💎" emptyWorld).
  reflexivity.
Defined.

(** A name that [exec.LookPath] does not find is not found by the second
    lookup of the probe either. *)
Lemma lookup_fails_again (h : Host) (name : string) (args : list string)
    (msg : string) :
  lookPath h name = ("", Some msg) ->
  snd (exec.LookPath h (exec.Path (exec.Command h name args))) <> None.
Proof.
  intros Hlook. unfold exec.Command, exec.LookPath at 2. rewrite Hlook.
  cbn. unfold exec.LookPath. rewrite Hlook. discriminate.
Qed.

(** C2.  For a label whose normalized name is one of the five languages:
    when the lookup of its executable on the search path fails, the probe
    returns the error "not found in PATH" with empty version and path, and
    the state it returns is the one it was called in: no child process was
    started. *)
Theorem unresolved_executable_not_found
    (h : Host) (label name : string) (args : list string) (w : World) :
  versionCheck (normalize label) = Some (name, args) ->
  snd (exec.LookPath h (exec.Path (exec.Command h name args))) <> None ->
  getLanguageVersion h label w = Ret (("", "", Some notFound), w)
  /\ NotFound notFound
  /\ forall result w', getLanguageVersion h label w = Ret (result, w') ->
                       started w' = started w.
Proof.
  intros Hcheck Hlook.
  assert (Heq : getLanguageVersion h label w = Ret (("", "", Some notFound), w)).
  { rewrite getLanguageVersion_eq, Hcheck. cbn zeta.
    destruct (exec.LookPath h (exec.Path (exec.Command h name args)))
      as [path [e|]]; [reflexivity|].
    exfalso. apply Hlook. reflexivity. }
  split; [exact Heq|]. split; [reflexivity|].
  intros result w' Hrun. rewrite Heq in Hrun. congruence.
Qed.

Lemma unresolved_executable_not_found_witness :
  getLanguageVersion bareHost "Go 🚀" emptyWorld
  = Ret (("", "", Some notFound), emptyWorld).
Proof.
  apply (unresolved_executable_not_found bareHost "Go 🚀" "go" ["version"] emptyWorld).
  - reflexivity.
  - apply (lookup_fails_again bareHost "go" ["version"]
             "exec: go: executable file not found in $PATH").
    reflexivity.
Defined.

(** ** The version string of a successful probe *)

Lemma Split_at_space (first rest : string) :
  normalize first = first ->
  strings.Split (first +:+ " " +:+ rest) " " = first :: strings.Split rest " ".
Proof.
  induction first as [|c first IH]; simpl.
  - reflexivity.
  - destruct (Ascii.eqb c " "); [discriminate|].
    intros Hfirst. injection Hfirst as Hfirst. rewrite (IH Hfirst). reflexivity.
Qed.

(** C1, as stated, fails: when [python3 --version] prints "Python  3.11.2"
    with two spaces, the second token is "3.11.2" and the probe returns the
    empty string, the piece between the two spaces. *)
Lemma python_version_is_second_field_fails : ~ python_version_is_second_field.
Proof.
  intros Hclaim.
  specialize (Hclaim (installedHost "Python  3.11.2") "Python 🐍"
                "/usr/bin/python3" "Python  3.11.2" emptyWorld
                {| started := [("/usr/bin/python3", ["python3"; "--version"])];
                   printed := [] |}
                eq_refl eq_refl eq_refl).
  vm_compute in Hclaim. discriminate.
Qed.

(** C1, amended.  For a Python probe whose command succeeds, the output is
    trimmed and cut at every single space: with two pieces or more the
    version is the second piece, that is the text between the first space
    and the next one (or the end); with no space in it, the trimmed output
    is the version. *)
Theorem python_version_is_second_piece
    (h : Host) (label path out : string) (w w' : World) :
  normalize label = "Python" ->
  exec.LookPath h (exec.Path (exec.Command h "python3" ["--version"])) = (path, None) ->
  exec.Run h (exec.Command h "python3" ["--version"]) w = Ret ((out, None), w') ->
  getLanguageVersion h label w =
    Ret ((match strings.Split (strings.TrimSpace out) " " with
          | _ :: second :: _ => second
          | _ => strings.TrimSpace out
          end, path, None), w')
  /\ (forall first rest : string,
        strings.TrimSpace out = first +:+ " " +:+ rest ->
        normalize first = first ->
        getLanguageVersion h label w = Ret ((normalize rest, path, None), w'))
  /\ (normalize (strings.TrimSpace out) = strings.TrimSpace out ->
      getLanguageVersion h label w = Ret ((strings.TrimSpace out, path, None), w')).
Proof.
  intros Hname Hlook Hrun.
  assert (Heq : getLanguageVersion h label w =
                Ret ((versionOf "Python" (strings.TrimSpace out), path, None), w')).
  { rewrite getLanguageVersion_eq, Hname. cbn [versionCheck String.eqb Ascii.eqb Bool.eqb].
    cbn zeta. rewrite Hlook, Hrun. reflexivity. }
  rewrite Heq. unfold versionOf. cbn [String.eqb Ascii.eqb Bool.eqb].
  split; [reflexivity|]. split.
  - intros first rest Htrim Hfirst.
    rewrite Htrim, (Split_at_space first rest Hfirst).
    destruct (Split_normalize rest) as (pieces & ->). reflexivity.
  - intros Hnospace.
    destruct (Split_normalize (strings.TrimSpace out)) as (pieces & Hsplit).
    rewrite Hnospace in Hsplit. rewrite Hsplit.
    destruct pieces as [|second pieces]; [reflexivity|].
    exfalso. revert Hnospace Hsplit. generalize (strings.TrimSpace out) as t.
    induction t as [|c t IH]; simpl; [discriminate|].
    destruct (Ascii.eqb c " "); [discriminate|].
    intros Hno. injection Hno as Hno.
    destruct (strings.Split t " ") as [|a l] eqn:E; [discriminate|].
    intros Hs. injection Hs as Ha Hl. subst. apply IH; [assumption|].
    congruence.
Qed.

Lemma python_version_is_second_piece_witness :
  getLanguageVersion (installedHost ("Python 3.11.2" +:+ newline)) "Python 🐍" emptyWorld
  = Ret (("3.11.2", "/usr/bin/python3", None),
         {| started := [("/usr/bin/python3", ["python3"; "--version"])];
            printed := [] |}).
Proof.
  exact (proj1 (python_version_is_second_piece
                  (installedHost ("Python 3.11.2" +:+ newline)) "Python 🐍"
                  "/usr/bin/python3" ("Python 3.11.2" +:+ newline) emptyWorld
                  {| started := [("/usr/bin/python3", ["python3"; "--version"])];
                     printed := [] |}
                  eq_refl eq_refl eq_refl)).
Defined.

Lemma TrimPrefix_v (s : string) : strings.TrimPrefix s "v" = withoutLeadingV s.
Proof.
  unfold strings.TrimPrefix, withoutLeadingV. destruct s as [|c rest]; [reflexivity|].
  cbn [strings.cutPrefix]. destruct (Ascii.eqb c "v"); reflexivity.
Qed.

(** C6.  For a JavaScript probe whose command succeeds, the version is the
    trimmed output without one leading "v" when it starts with one, and the
    trimmed output itself otherwise. *)
Theorem javascript_version_strips_one_v
    (h : Host) (label path out : string) (w w' : World) :
  normalize label = "JavaScript" ->
  exec.LookPath h (exec.Path (exec.Command h "node" ["--version"])) = (path, None) ->
  exec.Run h (exec.Command h "node" ["--version"]) w = Ret ((out, None), w') ->
  getLanguageVersion h label w =
    Ret ((withoutLeadingV (strings.TrimSpace out), path, None), w').
Proof.
  intros Hname Hlook Hrun.
  rewrite getLanguageVersion_eq, Hname.
  cbn [versionCheck String.eqb Ascii.eqb Bool.eqb]. cbn zeta.
  rewrite Hlook, Hrun. unfold versionOf. cbn [String.eqb Ascii.eqb Bool.eqb].
  rewrite TrimPrefix_v. reflexivity.
Qed.

Lemma javascript_version_strips_one_v_witness :
  getLanguageVersion (installedHost ("v20.11.0" +:+ newline)) "JavaScript 💫" emptyWorld
  = Ret (("20.11.0", "/usr/bin/node", None),
         {| started := [("/usr/bin/node", ["node"; "--version"])];
            printed := [] |}).
Proof.
  exact (javascript_version_strips_one_v
           (installedHost ("v20.11.0" +:+ newline)) "JavaScript 💫"
           "/usr/bin/node" ("v20.11.0" +:+ newline) emptyWorld
           {| started := [("/usr/bin/node", ["node"; "--version"])];
              printed := [] |}
           eq_refl eq_refl eq_refl).
Defined.

(** ** The catalog *)

(** C4.  For a label whose normalized name is one of the five languages,
    the version catalog returns a non-empty list, every label of which is
    newer than all labels after it, without duplicates; for any other
    label it returns the empty list (a value, not a failure). *)
Theorem available_versions_catalog (label : string) :
  (supported (normalize label) = true ->
   exists labels,
     getAvailableVersions label = Ret labels /\
     labels <> [] /\ StronglySorted newer labels /\ NoDup labels)
  /\ (supported (normalize label) = false -> getAvailableVersions label = Ret []).
Proof.
  rewrite getAvailableVersions_eq. split.
  - intros Hsup. eexists. split; [reflexivity|].
    apply supported_cases in Hsup.
    destruct Hsup as [->|[->|[->|[->| ->]]]];
      (split; [vm_compute; discriminate|]);
      (split; [vm_compute; repeat (constructor; try reflexivity)
              |apply (bool_decide_unpack _); vm_compute; exact I]).
  - intros Hnot. rewrite (versions_unsupported _ Hnot). reflexivity.
Qed.

Lemma available_versions_catalog_witness :
  (exists labels,
     getAvailableVersions "Python 🐍" = Ret labels /\
     labels <> [] /\ StronglySorted newer labels /\ NoDup labels)
  /\ getAvailableVersions "Ruby 💎" = Ret [].
Proof.
  split.
  - apply (proj1 (available_versions_catalog "Python 🐍")). reflexivity.
  - apply (proj2 (available_versions_catalog "Ruby 💎")). reflexivity.
Defined.

Lemma not_specialized (name : string) :
  name = "Rust" \/ supported name = false -> specialized name = false.
Proof.
  intros [->|Hnot]; [reflexivity|].
  unfold supported in Hnot. apply bool_decide_eq_false_1 in Hnot.
  apply bool_decide_eq_false_2.
  rewrite !elem_of_cons, elem_of_nil in *. intuition.
Qed.

(** C5.  The editor catalog returns, for every label, the three base
    editors first, in their fixed order and with the first one selected;
    when the normalized name is Python, Go, JavaScript or Java exactly one
    more editor follows, which is none of the base editors; for Rust and
    for every unrecognized name the result is the base list. *)
Theorem editor_options_catalog (label : string) :
  exists options,
    getLanguageEditors label = Ret options /\
    take 3 options = baseEditors /\
    map huh.Value baseEditors = ["VS Code"; "Neovim"; "Sublime Text"] /\
    map huh.selected baseEditors = [true; false; false] /\
    (normalize label ∈ ["Python"; "Go"; "JavaScript"; "Java"] ->
     exists editor, options = baseEditors ++ [editor] /\ editor ∉ baseEditors) /\
    (normalize label = "Rust" \/ supported (normalize label) = false ->
     options = baseEditors).
Proof.
  rewrite getLanguageEditors_eq. eexists. split; [reflexivity|].
  split; [destruct (specialized (normalize label)); reflexivity|].
  split; [reflexivity|]. split; [reflexivity|]. split.
  - intros Hin. unfold specialized. rewrite bool_decide_eq_true_2 by exact Hin.
    eexists. split; [reflexivity|].
    rewrite !elem_of_cons, elem_of_nil in Hin.
    destruct Hin as [->|[->|[->|[->|[]]]]]; cbn; unfold baseEditors;
      rewrite !elem_of_cons, elem_of_nil; intros [H|[H|[H|[]]]]; discriminate H.
  - intros Hbase. rewrite (not_specialized _ Hbase). reflexivity.
Qed.

Lemma editor_options_catalog_witness :
  (exists editor,
      getLanguageEditors "Go 🚀" = Ret (baseEditors ++ [editor])
      /\ editor ∉ baseEditors)
  /\ getLanguageEditors "Rust 🦀" = Ret baseEditors
  /\ getLanguageEditors "Ruby 💎" = Ret baseEditors.
Proof.
  split; [|split].
  - destruct (editor_options_catalog "Go 🚀")
      as (options & Hrun & _ & _ & _ & Hspecial & _).
    destruct Hspecial as (editor & -> & Hnew).
    + apply (bool_decide_unpack _). vm_compute. exact I.
    + exists editor. split; [exact Hrun|exact Hnew].
  - destruct (editor_options_catalog "Rust 🦀")
      as (options & Hrun & _ & _ & _ & _ & Hbase).
    rewrite Hrun, Hbase; [reflexivity|]. left. reflexivity.
  - destruct (editor_options_catalog "Ruby 💎")
      as (options & Hrun & _ & _ & _ & _ & Hbase).
    rewrite Hrun, Hbase; [reflexivity|]. right. reflexivity.
Defined.

(** ** Probe failures in the session *)

Lemma Run_error_kind (h : Host) (name : string) (args : list string)
    (w w' : World) (out : string) (e : error) :
  exec.Run h (exec.Command h name args) w = Ret ((out, Some e), w') ->
  ExecutionFailed e.
Proof.
  unfold exec.Run, exec.Command, exec.LookPath.
  destruct (lookPath h name) as [lp [msg|]]; cbn.
  - unfold ret. intros [= _ <- _]. exists msg. reflexivity.
  - destruct (execute h _ _) as [[out' errout] [msg|]]; cbn.
    + intros [= _ <- _]. exists msg. reflexivity.
    + discriminate.
Qed.

Lemma probe_error_kinds (h : Host) (label version path : string)
    (e : error) (w w' : World) :
  getLanguageVersion h label w = Ret ((version, path, Some e), w') ->
  (UnsupportedLanguage e \/ NotFound e \/ ExecutionFailed e)
  /\ version = "" /\ path = "".
Proof.
  rewrite getLanguageVersion_eq.
  destruct (versionCheck (normalize label)) as [[name args]|].
  - cbn zeta.
    destruct (exec.LookPath h (exec.Path (exec.Command h name args)))
      as [found [e'|]].
    + intros [= <- <- <- _]. split; [|split]; try reflexivity.
      right. left. reflexivity.
    + destruct (exec.Run h (exec.Command h name args) w)
        as [[[out [e'|]] w'']|msg] eqn:Hrun; [|discriminate|discriminate].
      intros [= <- <- <- _]. split; [|split]; try reflexivity.
      right. right. exact (Run_error_kind _ _ _ _ _ _ _ Hrun).
  - intros [= <- <- <- _]. split; [|split]; try reflexivity.
    left. exists (normalize label). reflexivity.
Qed.

Lemma setType_same (setup : DevSetup) :
  setType setup (Type_ (Language_ setup)) = setup.
Proof. destruct setup as [[] ?]. reflexivity. Qed.

Section Session.

Variable host : Host.
Variables highlight subtle headerStyle errorStyle boxStyle : lipgloss.Style.
Variable EnglishJoin : list string -> bool -> string.

Lemma noteTitle_returns (setup : DevSetup) (w : World) :
  exists setup' title w',
    noteTitle host highlight subtle setup w = Ret ((setup', title), w').
Proof.
  unfold noteTitle, bind.
  destruct (getLanguageVersion_returns host (Type_ (Language_ setup)) w)
    as (v & p & e & w' & ->).
  destruct e; unfold ret; eauto.
Qed.

Lemma languageForm_Run_returns (picks : list string) (version : string)
    (err : option error) (setup : DevSetup) (w : World) :
  exists setup' w',
    languageForm_Run host highlight subtle picks version err setup w
    = Ret ((setup', err), w').
Proof.
  revert setup w. induction picks as [|pick picks IH]; intros setup w.
  - cbn. unfold ret. eauto.
  - cbn [languageForm_Run]. unfold bind at 1.
    destruct (noteTitle_returns (setType setup pick) w)
      as (setup' & title & w' & ->).
    cbn [fst]. unfold bind at 1, lift, versionOptions.
    rewrite getAvailableVersions_eq. cbn [go_bind].
    apply IH.
Qed.

Lemma main_exit_status (first : LanguageInput) (second : EditorInput) (w : World) :
  exists code w',
    main host highlight subtle headerStyle errorStyle boxStyle EnglishJoin
      first second w = Ret (code, w')
    /\ (languageErr first = None -> editorErr second = None -> code = 0%Z)
    /\ (code <> 0%Z -> languageErr first <> None \/ editorErr second <> None).
Proof.
  unfold main, bind at 1.
  destruct (languageForm_Run_returns (languages first) (version first)
              (languageErr first) zeroSetup w) as (setup & w1 & ->).
  destruct (languageErr first) as [e|].
  - unfold bind, Println, ret. eexists _, _. split; [reflexivity|].
    split; [discriminate|]. intros _. left. discriminate.
  - unfold bind at 1.
    destruct (negb (Type_ (Language_ setup) =? "")
              && negb (Version (Language_ setup) =? "")).
    + unfold editorForm_Run, bind at 1, lift, editorOptions.
      rewrite getLanguageEditors_eq. unfold ret at 1.
      destruct (editorErr second) as [e|];
        unfold bind, Println, ret; eexists _, _; split; try reflexivity.
      * split; [discriminate|]. intros _. right. discriminate.
      * split; [reflexivity|]. intros Hcode. exfalso. apply Hcode. reflexivity.
    + unfold ret at 1. unfold bind, Println, ret. eexists _, _.
      split; [reflexivity|].
      split; [reflexivity|]. intros Hcode. exfalso. apply Hcode. reflexivity.
Qed.

End Session.

(** C3.  When the probe of the selected language returns an error, the
    error is of one of the three kinds, the title closure answers "No
    existing installation found" and leaves the setup as it was (so the
    current version and the path, unset before, are unset after), the form
    goes on with the next value exactly as from that state, and the exit
    status of [main] is 0 unless one of the two forms returned an error:
    no probe outcome ends the program. *)
Theorem probe_failure_is_not_fatal
    (h : Host) (highlight subtle headerStyle errorStyle boxStyle : lipgloss.Style)
    (EnglishJoin : list string -> bool -> string)
    (setup : DevSetup) (version path : string) (e : error) (w w' : World) :
  getLanguageVersion h (Type_ (Language_ setup)) w = Ret ((version, path, Some e), w') ->
  (UnsupportedLanguage e \/ NotFound e \/ ExecutionFailed e) /\
  noteTitle h highlight subtle setup w =
    Ret ((setup, lipgloss.Render subtle "No existing installation found"), w') /\
  (forall setup' title w'',
      noteTitle h highlight subtle setup w = Ret ((setup', title), w'') ->
      (CurrentVer (Language_ setup) = "" -> CurrentVer (Language_ setup') = "") /\
      (Path (Language_ setup) = "" -> Path (Language_ setup') = "")) /\
  (forall picks picked err,
      languageForm_Run h highlight subtle
        (Type_ (Language_ setup) :: picks) picked err setup w
      = languageForm_Run h highlight subtle picks picked err setup w') /\
  (forall first second w0, exists code w1,
      main h highlight subtle headerStyle errorStyle boxStyle EnglishJoin
        first second w0 = Ret (code, w1)
      /\ (languageErr first = None -> editorErr second = None -> code = 0%Z)
      /\ (code <> 0%Z -> languageErr first <> None \/ editorErr second <> None)).
Proof.
  intros Hprobe.
  assert (Htitle : noteTitle h highlight subtle setup w =
            Ret ((setup, lipgloss.Render subtle "No existing installation found"), w')).
  { unfold noteTitle, bind. rewrite Hprobe. reflexivity. }
  split; [exact (proj1 (probe_error_kinds _ _ _ _ _ _ _ Hprobe))|].
  split; [exact Htitle|]. split; [|split].
  - intros setup' title w'' Hrun. rewrite Htitle in Hrun.
    injection Hrun as <- _ _. auto.
  - intros picks picked err. cbn [languageForm_Run].
    rewrite setType_same. unfold bind at 1. rewrite Htitle. cbn [fst].
    unfold bind at 1, lift, versionOptions.
    rewrite getAvailableVersions_eq. reflexivity.
  - intros first second w0. apply main_exit_status.
Qed.

Lemma probe_failure_is_not_fatal_witness :
  noteTitle bareHost plain plain (setType zeroSetup "Go 🚀") emptyWorld =
    Ret ((setType zeroSetup "Go 🚀", "No existing installation found"), emptyWorld).
Proof.
  exact (proj1 (proj2 (probe_failure_is_not_fatal
                         bareHost plain plain plain plain plain
                         commaJoin
                         (setType zeroSetup "Go 🚀") "" "" notFound
                         emptyWorld emptyWorld eq_refl))).
Defined.


(** ** The scenarios of the specification, run on the sample machines *)

Example python_without_second_token :
  getLanguageVersion (installedHost "Python") "Python 🐍" emptyWorld
  = Ret (("Python", "/usr/bin/python3", None),
         {| started := [("/usr/bin/python3", ["python3"; "--version"])];
            printed := [] |}).
Proof. reflexivity. Qed.

Example javascript_without_v :
  getLanguageVersion (installedHost "20.11.0") "JavaScript 💫" emptyWorld
  = Ret (("20.11.0", "/usr/bin/node", None),
         {| started := [("/usr/bin/node", ["node"; "--version"])];
            printed := [] |}).
Proof. reflexivity. Qed.

Example only_one_v_is_stripped : withoutLeadingV "vv20" = "v20".
Proof. reflexivity. Qed.

Example go_output_is_only_trimmed :
  getLanguageVersion (installedHost ("go version go1.22.0 linux/amd64" +:+ newline))
    "Go 🚀" emptyWorld
  = Ret (("go version go1.22.0 linux/amd64", "/usr/bin/go", None),
         {| started := [("/usr/bin/go", ["go"; "version"])]; printed := [] |}).
Proof. reflexivity. Qed.

Example failed_execution :
  getLanguageVersion brokenHost "Rust 🦀" emptyWorld
  = Ret (("", "", Some (execError "exit status 1")),
         {| started := [("/usr/bin/rustc", ["rustc"; "--version"])];
            printed := [] |}).
Proof. reflexivity. Qed.

(** Go selected, toolchain absent: the run ends with status 0 and a
    summary without a "Previous version" line. *)
Example session_go_absent :
  main bareHost plain plain plain plain plain commaJoin
    {| languages := ["Go 🚀"]; version := "1.22.0 (Latest)"; languageErr := None |}
    {| editors := ["VS Code"; "GoLand"]; editorErr := None |}
    emptyWorld
  = Ret (0%Z,
         {| started := [];
            printed :=
              ["DEV ENVIRONMENT SETUP COMPLETE" +:+ newline +:+ newline
               +:+ "Language: Go 🚀" +:+ newline
               +:+ "Version: 1.22.0 (Latest)" +:+ newline
               +:+ "Editors: VS Code, GoLand"] |}).
Proof. reflexivity. Qed.

(** Python selected, the probe prints "Python 3.11.2": the stored version
    is "3.11.2" and the summary ends with the "Previous version" line. *)
Example session_python_found :
  main pythonHost plain plain plain plain plain commaJoin
    {| languages := ["Python 🐍"]; version := "3.12.1 (Latest)"; languageErr := None |}
    {| editors := ["PyCharm"]; editorErr := None |}
    emptyWorld
  = Ret (0%Z,
         {| started := [("/usr/bin/python3", ["python3"; "--version"])];
            printed :=
              ["DEV ENVIRONMENT SETUP COMPLETE" +:+ newline +:+ newline
               +:+ "Language: Python 🐍" +:+ newline
               +:+ "Version: 3.12.1 (Latest)" +:+ newline
               +:+ "Editors: PyCharm" +:+ newline +:+ newline
               +:+ "Previous version: 3.11.2"] |}).
Proof. reflexivity. Qed.

(** A form that is aborted ends the program with status 1. *)
Example session_aborted :
  main bareHost plain plain plain plain plain commaJoin
    {| languages := ["Go 🚀"]; version := ""; languageErr := Some (errorString "user aborted") |}
    {| editors := []; editorErr := None |}
    emptyWorld
  = Ret (1%Z, {| started := []; printed := ["Error: user aborted"] |}).
Proof. reflexivity. Qed.

(** A failing probe writes nothing, so it does not clear what an earlier
    probe of the same form run stored either. *)
Example failing_probe_keeps_earlier_result :
  languageForm_Run pythonHost plain plain ["Python 🐍"; "Go 🚀"]
    "1.22.0 (Latest)" None zeroSetup emptyWorld
  = Ret (({| Language_ := {| Type_ := "Go 🚀"; Version := "1.22.0 (Latest)";
                             Editors := []; CurrentVer := "3.11.2";
                             Path := "/usr/bin/python3" |};
             CreateRepo := false |}, None),
         {| started := [("/usr/bin/python3", ["python3"; "--version"])];
            printed := [] |}).
Proof. reflexivity. Qed.


(** * Further properties of the code *)

(** ** Splitting at spaces *)

Lemma Split_pieces_no_space (s : string) :
  Forall (fun piece => normalize piece = piece) (strings.Split s " ").
Proof.
  induction s as [|c rest IH]; simpl.
  - repeat constructor.
  - destruct (Ascii.eqb c " ") eqn:E.
    + constructor; [reflexivity|exact IH].
    + destruct (strings.Split rest " ") as [|piece pieces].
      * constructor; [simpl; rewrite E; reflexivity|constructor].
      * inversion IH as [|? ? Hpiece Hpieces]; subst.
        constructor; [simpl; rewrite E, Hpiece; reflexivity|exact Hpieces].
Qed.

Lemma Split_concat (s : string) :
  String.concat " " (strings.Split s " ") = s.
Proof.
  induction s as [|c rest IH]; [reflexivity|].
  cbn [strings.Split].
  destruct (Ascii.eqb_spec c " ") as [->|Hc].
  - destruct (Split_cons rest " ") as (piece & pieces & Hsplit).
    rewrite Hsplit in *. rewrite <- IH. reflexivity.
  - destruct (Split_cons rest " ") as (piece & pieces & Hsplit).
    rewrite Hsplit in *. rewrite <- IH.
    destruct pieces; reflexivity.
Qed.

(** X1.  Cutting a string at its spaces loses nothing: the pieces joined with a
    space are the string, no piece contains a space, and there is one piece
    more than there are spaces. *)
Theorem Split_join (s : string) :
  String.concat " " (strings.Split s " ") = s /\
  Forall (fun piece => normalize piece = piece) (strings.Split s " ") /\
  length (strings.Split s " ")
  = S (length (filter (fun c => c = " "%char) (list_ascii_of_string s))).
Proof.
  split; [apply Split_concat|split; [apply Split_pieces_no_space|]].
  induction s as [|c rest IH]; [reflexivity|].
  cbn [strings.Split list_ascii_of_string]. rewrite filter_cons.
  destruct (Ascii.eqb_spec c " ") as [->|Hc].
  - rewrite decide_True by reflexivity. cbn [length]. rewrite IH. reflexivity.
  - rewrite decide_False by exact Hc.
    destruct (Split_cons rest " ") as (piece & pieces & Hsplit).
    rewrite Hsplit in *. exact IH.
Qed.

(** X2.  The normalized name is the label up to its first space: it is a prefix
    of the label, contains no space, and what follows it is nothing or
    starts with a space.  A label without a space is its own name. *)
Theorem firstToken_is_prefix (label name : string) :
  firstToken label = Ret name ->
  normalize name = name /\
  (exists rest, label = name +:+ rest /\ (rest = "" \/ exists r, rest = String " " r)) /\
  (normalize label = label -> name = label).
Proof.
  rewrite firstToken_normalize. intros [= <-].
  split; [apply normalize_idempotent|]. split; [|auto].
  induction label as [|c rest IH]; cbn [normalize].
  - exists "". auto.
  - destruct (Ascii.eqb_spec c " ") as [->|Hc].
    + exists (String " " rest). split; [reflexivity|]. right. eauto.
    + destruct IH as (r & Hr & Hcase). exists r. split; [|exact Hcase].
      change (String c rest = String c (normalize rest +:+ r)).
      rewrite <- Hr. reflexivity.
Qed.

Lemma firstToken_is_prefix_witness :
  normalize "Rust" = "Rust" /\
  (exists rest, "Rust 🦀" = "Rust" +:+ rest /\ (rest = "" \/ exists r, rest = String " " r)) /\
  (normalize "Rust 🦀" = "Rust 🦀" -> "Rust" = "Rust 🦀").
Proof.
  apply (firstToken_is_prefix "Rust 🦀" "Rust"). reflexivity.
Defined.

(** ** Trimming *)

Lemma rev_app_append (s t : string) : String.rev_app s t = String.rev s +:+ t.
Proof.
  unfold String.rev. revert t. induction s as [|c s IH]; intros t; [reflexivity|].
  cbn [String.rev_app]. rewrite (IH (String c t)), (IH (String c "")).
  generalize (String.rev_app s "") as r. intros r.
  induction r as [|d r IHr]; [reflexivity|].
  change (String d (r +:+ String c t) = String d ((r +:+ String c "") +:+ t)).
  rewrite IHr. reflexivity.
Qed.

Lemma append_empty_r (s : string) : s +:+ "" = s.
Proof.
  induction s as [|c s IH]; [reflexivity|].
  change (String c (s +:+ "") = String c s). rewrite IH. reflexivity.
Qed.

Lemma append_assoc (a b c : string) : (a +:+ b) +:+ c = a +:+ (b +:+ c).
Proof.
  induction a as [|x a IH]; [reflexivity|].
  change (String x ((a +:+ b) +:+ c) = String x (a +:+ (b +:+ c))).
  rewrite IH. reflexivity.
Qed.

Lemma rev_append (a b : string) :
  String.rev (a +:+ b) = String.rev b +:+ String.rev a.
Proof.
  induction a as [|x a IH].
  - cbn. rewrite append_empty_r. reflexivity.
  - change (String.rev_app (a +:+ b) (String x "")
            = String.rev b +:+ String.rev_app a (String x "")).
    rewrite !rev_app_append, IH, append_assoc. reflexivity.
Qed.

Lemma rev_involutive (s : string) : String.rev (String.rev s) = s.
Proof.
  induction s as [|c s IH]; [reflexivity|].
  change (String.rev (String.rev_app s (String c "")) = String c s).
  rewrite rev_app_append, rev_append, IH. reflexivity.
Qed.

Lemma prefix_append (r t x : string) :
  String.prefix r t = true -> String.prefix r (t +:+ x) = true.
Proof.
  revert t. induction r as [|c r IH]; intros t.
  - intros _. destruct t; [destruct x|]; reflexivity.
  - destruct t as [|d t]; [discriminate|].
    change (String d t +:+ x) with (String d (t +:+ x)). cbn [String.prefix].
    destruct (ascii_dec c d); [apply IH|discriminate].
Qed.

Lemma width_zero (P : string -> bool) (runes : list string) :
  Forall (fun r => String.length r <> 0) runes ->
  match find P runes with Some r => String.length r | None => 0 end = 0
  <-> forall r, r ∈ runes -> P r = false.
Proof.
  induction 1 as [|r runes Hr Hrunes IH]; cbn [find].
  - split; [|reflexivity]. intros _ r Hin. inversion Hin.
  - destruct (P r) eqn:E.
    + split; [intros Hlen; contradiction|].
      intros Hall. rewrite (Hall r) in E by constructor. discriminate.
    + rewrite IH. split.
      * intros Hall r' Hin. inversion Hin; subst; auto.
      * intros Hall r' Hin. apply Hall. constructor. exact Hin.
Qed.

Lemma spaceRunes_not_empty :
  Forall (fun r => String.length r <> 0) strings.spaceRunes.
Proof. repeat constructor; discriminate. Qed.

Lemma dropWhile_stops (width : string -> nat) (skip : nat) (s : string) :
  width "" = 0 -> width (strings.dropWhile width skip s) = 0.
Proof.
  intros Hempty. revert skip. induction s as [|c rest IH]; intros skip.
  - exact Hempty.
  - cbn [strings.dropWhile]. destruct skip as [|k]; [|apply IH].
    destruct (width (String c rest)) as [|k] eqn:E; [exact E|apply IH].
Qed.

Lemma dropWhile_nothing (width : string -> nat) (s : string) :
  width s = 0 -> strings.dropWhile width 0 s = s.
Proof.
  intros Hzero. destruct s as [|c rest]; [reflexivity|].
  cbn [strings.dropWhile]. rewrite Hzero. reflexivity.
Qed.

Lemma dropWhile_suffix (width : string -> nat) (skip : nat) (s : string) :
  exists dropped, s = dropped +:+ strings.dropWhile width skip s.
Proof.
  revert skip. induction s as [|c rest IH]; intros skip.
  - exists "". reflexivity.
  - cbn [strings.dropWhile].
    assert (Hstep : forall k, exists dropped,
               String c rest = dropped +:+ strings.dropWhile width k rest).
    { intros k. destruct (IH k) as (dropped & Hd).
      exists (String c dropped).
      change (String c rest = String c (dropped +:+ strings.dropWhile width k rest)).
      rewrite <- Hd. reflexivity. }
    destruct skip as [|k]; [|apply Hstep].
    destruct (width (String c rest)) as [|k]; [|apply Hstep].
    exists "". reflexivity.
Qed.

Lemma TrimSpace_ends (s : string) :
  strings.leadingSpace (strings.TrimSpace s) = 0 /\
  strings.trailingSpace (String.rev (strings.TrimSpace s)) = 0.
Proof.
  unfold strings.TrimSpace, strings.TrimRightSpace, strings.TrimLeftSpace.
  set (u := strings.dropWhile strings.leadingSpace 0 s).
  assert (Hu : strings.leadingSpace u = 0)
    by (apply dropWhile_stops; reflexivity).
  split.
  - destruct (dropWhile_suffix strings.trailingSpace 0 (String.rev u))
      as (dropped & Hd).
    set (d := strings.dropWhile strings.trailingSpace 0 (String.rev u)) in *.
    assert (Hsplit : u = String.rev d +:+ String.rev dropped).
    { rewrite <- rev_append, <- Hd, rev_involutive. reflexivity. }
    unfold strings.leadingSpace in *.
    pose proof (proj1 (width_zero (fun r => String.prefix r u) _
                         spaceRunes_not_empty) Hu) as Hnone.
    apply (width_zero (fun r => String.prefix r (String.rev d)) _
             spaceRunes_not_empty).
    intros r Hin. specialize (Hnone r Hin). cbv beta in Hnone.
    destruct (String.prefix r (String.rev d)) eqn:E; [|reflexivity].
    rewrite Hsplit, (prefix_append _ _ _ E) in Hnone. discriminate.
  - rewrite rev_involutive. apply dropWhile_stops. reflexivity.
Qed.

(** X3.  White-space trimming is settled after one pass: the result neither
    starts nor ends with a white-space rune, a string that neither starts
    nor ends with one is returned as it is, and trimming a trimmed string
    changes nothing. *)
Theorem TrimSpace_idempotent (s : string) :
  strings.leadingSpace (strings.TrimSpace s) = 0 /\
  strings.trailingSpace (String.rev (strings.TrimSpace s)) = 0 /\
  (strings.leadingSpace s = 0 -> strings.trailingSpace (String.rev s) = 0 ->
   strings.TrimSpace s = s) /\
  strings.TrimSpace (strings.TrimSpace s) = strings.TrimSpace s.
Proof.
  assert (Hfix : forall t,
    strings.leadingSpace t = 0 -> strings.trailingSpace (String.rev t) = 0 ->
    strings.TrimSpace t = t).
  { intros t Hlead Htrail.
    unfold strings.TrimSpace, strings.TrimRightSpace, strings.TrimLeftSpace.
    rewrite (dropWhile_nothing _ _ Hlead), (dropWhile_nothing _ _ Htrail).
    apply rev_involutive. }
  destruct (TrimSpace_ends s) as [Hlead Htrail].
  split; [exact Hlead|]. split; [exact Htrail|]. split; [apply Hfix|].
  apply Hfix; assumption.
Qed.

Lemma TrimSpace_idempotent_witness :
  strings.TrimSpace "go1.22.0" = "go1.22.0".
Proof.
  apply (TrimSpace_idempotent "go1.22.0"); reflexivity.
Defined.

(** ** More on the probe *)

Lemma not_found_is_not_unsupported : ~ UnsupportedLanguage notFound.
Proof. intros [name Hname]. cbv in Hname. discriminate. Qed.

Lemma execution_failed_is_not_unsupported (e : error) :
  ExecutionFailed e -> ~ UnsupportedLanguage e.
Proof. intros [msg ->] [name Hname]. discriminate. Qed.

(** X4.  For Go, Rust and Java (a supported name that is neither Python nor
    JavaScript) a successful probe returns the trimmed output as it is,
    whatever it contains; it neither starts nor ends with white space. *)
Theorem trimmed_output_is_version
    (h : Host) (label name path out : string) (args : list string) (w w' : World) :
  versionCheck (normalize label) = Some (name, args) ->
  normalize label <> "Python" ->
  normalize label <> "JavaScript" ->
  exec.LookPath h (exec.Path (exec.Command h name args)) = (path, None) ->
  exec.Run h (exec.Command h name args) w = Ret ((out, None), w') ->
  getLanguageVersion h label w = Ret ((strings.TrimSpace out, path, None), w') /\
  strings.leadingSpace (strings.TrimSpace out) = 0 /\
  strings.trailingSpace (String.rev (strings.TrimSpace out)) = 0.
Proof.
  intros Hcheck HPython HJavaScript Hlook Hrun.
  split; [|apply TrimSpace_ends].
  rewrite getLanguageVersion_eq, Hcheck. cbn zeta. rewrite Hlook, Hrun.
  unfold versionOf.
  apply String.eqb_neq in HPython, HJavaScript.
  rewrite HPython, HJavaScript. reflexivity.
Qed.

Lemma trimmed_output_is_version_witness :
  getLanguageVersion
    (installedHost (" rustc 1.75.0 (82e1608df 2023-12-21)" +:+ newline))
    "Rust 🦀" emptyWorld
  = Ret (("rustc 1.75.0 (82e1608df 2023-12-21)", "/usr/bin/rustc", None),
         {| started := [("/usr/bin/rustc", ["rustc"; "--version"])];
            printed := [] |}).
Proof.
  refine (proj1 (trimmed_output_is_version
                   (installedHost (" rustc 1.75.0 (82e1608df 2023-12-21)" +:+ newline))
                   "Rust 🦀" "rustc" "/usr/bin/rustc"
                   (" rustc 1.75.0 (82e1608df 2023-12-21)" +:+ newline)
                   ["--version"] emptyWorld
                   {| started := [("/usr/bin/rustc", ["rustc"; "--version"])];
                      printed := [] |}
                   eq_refl _ _ eq_refl eq_refl)); discriminate.
Defined.

(** X5.  When the executable resolves and running it fails, the probe returns
    that very error, of the kind [ExecutionFailed], with empty version and
    path; whatever the process wrote is dropped. *)
Theorem execution_error_is_returned
    (h : Host) (label name path out : string) (args : list string)
    (e : error) (w w' : World) :
  versionCheck (normalize label) = Some (name, args) ->
  exec.LookPath h (exec.Path (exec.Command h name args)) = (path, None) ->
  exec.Run h (exec.Command h name args) w = Ret ((out, Some e), w') ->
  getLanguageVersion h label w = Ret (("", "", Some e), w') /\ ExecutionFailed e.
Proof.
  intros Hcheck Hlook Hrun. split.
  - rewrite getLanguageVersion_eq, Hcheck. cbn zeta. rewrite Hlook, Hrun.
    reflexivity.
  - exact (Run_error_kind _ _ _ _ _ _ _ Hrun).
Qed.

Lemma execution_error_is_returned_witness :
  getLanguageVersion brokenHost "Java ☕" emptyWorld
  = Ret (("", "", Some (execError "exit status 1")),
         {| started := [("/usr/bin/java", ["java"; "--version"])];
            printed := [] |})
  /\ ExecutionFailed (execError "exit status 1").
Proof.
  exact (execution_error_is_returned brokenHost "Java ☕" "java" "/usr/bin/java" ""
           ["--version"] (execError "exit status 1") emptyWorld
           {| started := [("/usr/bin/java", ["java"; "--version"])];
              printed := [] |}
           eq_refl eq_refl eq_refl).
Defined.

Lemma supported_probe_error
    (h : Host) (label version path : string) (e : error) (w w' : World) :
  getLanguageVersion h label w = Ret ((version, path, Some e), w') ->
  supported (normalize label) = true ->
  (NotFound e \/ ExecutionFailed e) /\ ~ UnsupportedLanguage e.
Proof.
  intros Hprobe Hsup. rewrite getLanguageVersion_eq in Hprobe.
  apply versionCheck_supported in Hsup.
  destruct Hsup as [[name args] Hcheck]. rewrite Hcheck in Hprobe.
  cbn zeta in Hprobe.
  destruct (exec.LookPath h (exec.Path (exec.Command h name args)))
    as [found [e'|]].
  - injection Hprobe as _ _ <- _. split; [left; reflexivity|].
    apply not_found_is_not_unsupported.
  - destruct (exec.Run h (exec.Command h name args) w)
      as [[[out [e'|]] w'']|msg] eqn:Hrun; [|discriminate|discriminate].
    injection Hprobe as _ _ <- _.
    pose proof (Run_error_kind _ _ _ _ _ _ _ Hrun) as Hkind.
    split; [right; exact Hkind|].
    apply execution_failed_is_not_unsupported. exact Hkind.
Qed.

(** X6.  Whenever the probe returns an error, version and path are empty, and
    the name decides the kind: an unsupported name gives the
    unsupported-language error and nothing else, a supported name gives
    [NotFound] or [ExecutionFailed] and never the unsupported-language
    error. *)
Theorem probe_error_classification
    (h : Host) (label version path : string) (e : error) (w w' : World) :
  getLanguageVersion h label w = Ret ((version, path, Some e), w') ->
  version = "" /\ path = "" /\
  (supported (normalize label) = false ->
   e = errorString ("unsupported language: " +:+ normalize label) /\ w' = w) /\
  (supported (normalize label) = true ->
   (NotFound e \/ ExecutionFailed e) /\ ~ UnsupportedLanguage e).
Proof.
  intros Hprobe.
  destruct (probe_error_kinds _ _ _ _ _ _ _ Hprobe) as (_ & Hversion & Hpath).
  split; [exact Hversion|]. split; [exact Hpath|]. split.
  - intros Hnot. rewrite getLanguageVersion_eq in Hprobe.
    rewrite (versionCheck_unsupported _ Hnot) in Hprobe.
    injection Hprobe as _ _ <- <-. split; reflexivity.
  - apply (supported_probe_error _ _ _ _ _ _ _ Hprobe).
Qed.

Lemma probe_error_classification_witness :
  (NotFound notFound \/ ExecutionFailed notFound) /\ ~ UnsupportedLanguage notFound.
Proof.
  apply (probe_error_classification bareHost "Java ☕" "" "" notFound
           emptyWorld emptyWorld eq_refl).
  reflexivity.
Defined.

Lemma Command_Args (h : Host) (name : string) (args : list string) :
  exec.Args (exec.Command h name args) = name :: args.
Proof. unfold exec.Command. destruct (exec.LookPath h name). reflexivity. Qed.

Lemma Run_footprint (h : Host) (c : exec.Cmd) (w w' : World)
    (out : string) (err : option error) :
  exec.Run h c w = Ret ((out, err), w') ->
  printed w' = printed w /\
  ((w' = w /\ err <> None) \/
   started w' = started w ++ [(exec.Path c, exec.Args c)]).
Proof.
  unfold exec.Run. destruct (exec.Err c) as [e|].
  - unfold ret. intros [= _ <- <-]. split; [reflexivity|]. left.
    split; [reflexivity|discriminate].
  - destruct (execute h (exec.Path c) (exec.Args c)) as [[out' errout] err'].
    intros [= _ _ <-]. split; [reflexivity|]. right. reflexivity.
Qed.

Lemma getLanguageVersion_effects
    (h : Host) (label version path : string) (err : option error) (w w' : World) :
  getLanguageVersion h label w = Ret ((version, path, err), w') ->
  printed w' = printed w /\
  ((w' = w /\ err <> None) \/
   exists name args,
     versionCheck (normalize label) = Some (name, args) /\
     (name, args) ∈ versionChecks /\
     started w' = started w
                  ++ [(exec.Path (exec.Command h name args), name :: args)]).
Proof.
  rewrite getLanguageVersion_eq.
  destruct (versionCheck (normalize label)) as [[name args]|] eqn:Hcheck.
  - cbn zeta.
    destruct (exec.LookPath h (exec.Path (exec.Command h name args)))
      as [found [e|]].
    + intros [= _ _ <- <-]. split; [reflexivity|]. left.
      split; [reflexivity|discriminate].
    + destruct (exec.Run h (exec.Command h name args) w)
        as [[[out err'] w'']|msg] eqn:Hrun; [|discriminate].
      destruct (Run_footprint _ _ _ _ _ _ Hrun) as [Hprinted Hstarted].
      assert (Hin : (name, args) ∈ versionChecks).
      { revert Hcheck. unfold versionCheck, versionChecks.
        repeat (destruct (String.eqb (normalize label) _);
                [intros [= <- <-]; rewrite !elem_of_cons; tauto|]).
        discriminate. }
      rewrite Command_Args in Hstarted.
      destruct err' as [e|].
      * intros [= _ _ <- <-]. split; [exact Hprinted|].
        destruct Hstarted as [[-> _]|Hstarted].
        -- left. split; [reflexivity|discriminate].
        -- right. exists name, args. auto.
      * intros [= _ _ <- <-]. split; [exact Hprinted|].
        destruct Hstarted as [[_ Habsurd]|Hstarted]; [contradiction|].
        right. exists name, args. auto.
  - intros [= _ _ <- <-]. split; [reflexivity|]. left.
    split; [reflexivity|discriminate].
Qed.

(** X7.  The effects of one probe: it prints nothing and starts at most one
    process, which is the version check of the language, with the program
    name as argument 0; a probe without error has started exactly that
    one; a probe of an unsupported name or of an unresolved executable has
    started none. *)
Theorem probe_footprint
    (h : Host) (label version path : string) (err : option error) (w w' : World) :
  getLanguageVersion h label w = Ret ((version, path, err), w') ->
  printed w' = printed w /\
  ((w' = w /\ err <> None) \/
   exists name args,
     versionCheck (normalize label) = Some (name, args) /\
     (name, args) ∈ versionChecks /\
     started w' = started w
                  ++ [(exec.Path (exec.Command h name args), name :: args)]) /\
  (err = None ->
   length (started w') = S (length (started w)) /\
   exists name args,
     versionCheck (normalize label) = Some (name, args) /\
     last (started w') = Some (exec.Path (exec.Command h name args), name :: args)).
Proof.
  intros Hprobe.
  destruct (getLanguageVersion_effects _ _ _ _ _ _ _ Hprobe) as [Hprinted Hstarted].
  split; [exact Hprinted|]. split; [exact Hstarted|].
  intros Hnone.
  destruct Hstarted as [[_ Herr]|(name & args & Hcheck & _ & Hone)];
    [contradiction|].
  rewrite Hone. split.
  - rewrite length_app. cbn [length]. lia.
  - exists name, args. split; [exact Hcheck|]. apply last_snoc.
Qed.

Lemma probe_footprint_witness :
  length (started {| started := [("/usr/bin/python3", ["python3"; "--version"])];
                     printed := [] |})
  = S (length (started emptyWorld)).
Proof.
  apply (probe_footprint pythonHost "Python 🐍" "3.11.2" "/usr/bin/python3" None
           emptyWorld
           {| started := [("/usr/bin/python3", ["python3"; "--version"])];
              printed := [] |}); reflexivity.
Defined.

(** X8.  The version that a successful Python probe returns never contains a
    space. *)
Theorem python_version_has_no_space
    (h : Host) (label path out : string) (w w' : World) :
  normalize label = "Python" ->
  exec.LookPath h (exec.Path (exec.Command h "python3" ["--version"])) = (path, None) ->
  exec.Run h (exec.Command h "python3" ["--version"]) w = Ret ((out, None), w') ->
  exists version,
    getLanguageVersion h label w = Ret ((version, path, None), w') /\
    normalize version = version.
Proof.
  intros Hname Hlook Hrun.
  rewrite getLanguageVersion_eq, Hname.
  cbn [versionCheck String.eqb Ascii.eqb Bool.eqb]. cbn zeta.
  rewrite Hlook, Hrun. eexists. split; [reflexivity|].
  unfold versionOf. cbn [String.eqb Ascii.eqb Bool.eqb].
  pose proof (Split_pieces_no_space (strings.TrimSpace out)) as Hpieces.
  pose proof (Split_concat (strings.TrimSpace out)) as Hjoin.
  destruct (strings.Split (strings.TrimSpace out) " ") as [|first [|second pieces]].
  - cbn in Hjoin. rewrite <- Hjoin. reflexivity.
  - cbn in Hjoin. subst first. inversion Hpieces; assumption.
  - inversion Hpieces as [|? ? _ Hrest]; subst.
    inversion Hrest; assumption.
Qed.

Lemma python_version_has_no_space_witness :
  exists version,
    getLanguageVersion (installedHost "Python 3.11.2 final") "Python 🐍" emptyWorld
    = Ret ((version, "/usr/bin/python3", None),
           {| started := [("/usr/bin/python3", ["python3"; "--version"])];
              printed := [] |})
    /\ normalize version = version.
Proof.
  exact (python_version_has_no_space
           (installedHost "Python 3.11.2 final") "Python 🐍"
           "/usr/bin/python3" "Python 3.11.2 final" emptyWorld
           {| started := [("/usr/bin/python3", ["python3"; "--version"])];
              printed := [] |}
           eq_refl eq_refl eq_refl).
Defined.

(** X9.  Every option of the language menu is a label that all three functions
    know: its normalized name is supported, the version catalog has
    versions for it, and a probe of it never fails with the
    unsupported-language error. *)
Theorem menu_languages_are_supported (option : huh.Option) :
  option ∈ languageMenu ->
  supported (normalize (huh.Value option)) = true /\
  (exists labels, getAvailableVersions (huh.Value option) = Ret labels /\ labels <> []) /\
  (forall h w version path e w',
      getLanguageVersion h (huh.Value option) w = Ret ((version, path, Some e), w') ->
      ~ UnsupportedLanguage e).
Proof.
  intros Hin.
  assert (Hsup : supported (normalize (huh.Value option)) = true).
  { unfold languageMenu, NewOptions in Hin. cbn [map] in Hin.
    rewrite !elem_of_cons, elem_of_nil in Hin.
    destruct Hin as [->|[->|[->|[->|[->|[]]]]]]; reflexivity. }
  split; [exact Hsup|]. split.
  - rewrite getAvailableVersions_eq. eexists. split; [reflexivity|].
    apply versions_supported. exact Hsup.
  - intros h w version path e w' Hprobe.
    apply (supported_probe_error _ _ _ _ _ _ _ Hprobe). exact Hsup.
Qed.

Lemma menu_languages_are_supported_witness :
  supported (normalize "Rust 🦀") = true /\
  (exists labels, getAvailableVersions "Rust 🦀" = Ret labels /\ labels <> []) /\
  (forall h w version path e w',
      getLanguageVersion h "Rust 🦀" w = Ret ((version, path, Some e), w') ->
      ~ UnsupportedLanguage e).
Proof.
  apply (menu_languages_are_supported (huh.NewOption "Rust 🦀" "Rust 🦀")).
  unfold languageMenu, NewOptions. cbn [map]. rewrite !elem_of_cons.
  do 3 right. left. reflexivity.
Defined.

(** ** More on the catalog *)

Lemma versions_NoDup (name : string) : NoDup (map_index [] versions name).
Proof.
  destruct (supported name) eqn:E.
  - apply supported_cases in E.
    destruct E as [->|[->|[->|[->| ->]]]];
      apply (bool_decide_unpack _); vm_compute; exact I.
  - rewrite (versions_unsupported _ E). constructor.
Qed.

(** X10.  The options of the editor select: their values are pairwise distinct,
    and so are their keys; VS Code, the first, is the only one selected
    beforehand; there are three or four of them. *)
Theorem editor_options_are_distinct (label : string) :
  exists options,
    getLanguageEditors label = Ret options /\
    NoDup (map huh.Value options) /\
    NoDup (map huh.Key options) /\
    map huh.selected options = true :: replicate (length options - 1) false /\
    (length options = 3 \/ length options = 4).
Proof.
  rewrite getLanguageEditors_eq. eexists. split; [reflexivity|].
  destruct (specialized (normalize label)).
  - destruct (String.eqb (normalize label) "Python");
      [|destruct (String.eqb (normalize label) "Go");
        [|destruct (String.eqb (normalize label) "JavaScript")]];
      (split; [apply (bool_decide_unpack _); vm_compute; exact I|]);
      (split; [apply (bool_decide_unpack _); vm_compute; exact I|]);
      (split; [reflexivity|right; reflexivity]).
  - split; [apply (bool_decide_unpack _); vm_compute; exact I|].
    split; [apply (bool_decide_unpack _); vm_compute; exact I|].
    split; [reflexivity|left; reflexivity].
Qed.

(** X11.  The options of the version select mirror the catalog: one option per
    label, in the order of the catalog, key and value both the label, none
    selected beforehand, no value twice; for a language that the catalog
    does not know the select has no options. *)
Theorem version_options_mirror_catalog
    (setup : DevSetup) :
  exists labels options,
    getAvailableVersions (Type_ (Language_ setup)) = Ret labels /\
    versionOptions setup = Ret options /\
    map huh.Value options = labels /\
    map huh.Key options = labels /\
    Forall (fun option => huh.selected option = false) options /\
    NoDup (map huh.Value options) /\
    (supported (normalize (Type_ (Language_ setup))) = false -> options = []).
Proof.
  unfold versionOptions. rewrite getAvailableVersions_eq. cbn [go_bind].
  eexists _, _. split; [reflexivity|]. split; [reflexivity|].
  assert (Hvalues : forall labels : list string,
             map huh.Value (map (fun v => huh.NewOption v v) labels) = labels).
  { induction labels as [|l labels IH]; [reflexivity|].
    cbn [map]. rewrite IH. reflexivity. }
  assert (Hkeys : forall labels : list string,
             map huh.Key (map (fun v => huh.NewOption v v) labels) = labels).
  { induction labels as [|l labels IH]; [reflexivity|].
    cbn [map]. rewrite IH. reflexivity. }
  split; [apply Hvalues|]. split; [apply Hkeys|]. split; [|split].
  - apply Forall_forall. intros option Hin.
    apply list_elem_of_fmap in Hin. destruct Hin as (l & -> & _). reflexivity.
  - rewrite Hvalues. apply versions_NoDup.
  - intros Hnot. rewrite (versions_unsupported _ Hnot). reflexivity.
Qed.

(** ** More on the session *)

Section Forms.

Variable host : Host.
Variables highlight subtle headerStyle errorStyle boxStyle : lipgloss.Style.
Variable EnglishJoin : list string -> bool -> string.

Lemma noteTitle_cases (setup : DevSetup) (w : World) :
  exists version path err w',
    getLanguageVersion host (Type_ (Language_ setup)) w
    = Ret ((version, path, err), w') /\
    noteTitle host highlight subtle setup w
    = Ret ((match err with
            | None => setFound setup version path
            | Some _ => setup
            end,
            match err with
            | None => lipgloss.Render highlight
                        ("Found " +:+ Type_ (Language_ setup) +:+ " installation:")
            | Some _ => lipgloss.Render subtle "No existing installation found"
            end), w').
Proof.
  destruct (getLanguageVersion_returns host (Type_ (Language_ setup)) w)
    as (version & path & err & w' & Hprobe).
  exists version, path, err, w'. split; [exact Hprobe|].
  unfold noteTitle, bind. rewrite Hprobe. destruct err; reflexivity.
Qed.

(** One value of the language select: the probe of that value, then the
    rest of the form from the setup that the title closure left. *)
Lemma languageForm_Run_step (pick : string) (picks : list string)
    (picked : string) (err : option error) (setup : DevSetup) (w : World) :
  exists version path probed w',
    getLanguageVersion host pick w = Ret ((version, path, probed), w') /\
    languageForm_Run host highlight subtle (pick :: picks) picked err setup w
    = languageForm_Run host highlight subtle picks picked err
        (match probed with
         | None => setFound (setType setup pick) version path
         | Some _ => setType setup pick
         end) w'.
Proof.
  destruct (noteTitle_cases (setType setup pick) w)
    as (version & path & probed & w' & Hprobe & Htitle).
  exists version, path, probed, w'. split; [exact Hprobe|].
  cbn [languageForm_Run]. unfold bind at 1. rewrite Htitle. cbn [fst].
  unfold bind at 1, lift, versionOptions.
  rewrite getAvailableVersions_eq. reflexivity.
Qed.

Lemma languageForm_Run_fields (picks : list string) (picked : string)
    (err : option error) (setup : DevSetup) (w : World) :
  exists setup' w',
    languageForm_Run host highlight subtle picks picked err setup w
    = Ret ((setup', err), w') /\
    Type_ (Language_ setup') = default (Type_ (Language_ setup)) (last picks) /\
    Version (Language_ setup') = picked /\
    Editors (Language_ setup') = Editors (Language_ setup) /\
    CreateRepo setup' = CreateRepo setup.
Proof.
  revert setup w. induction picks as [|pick picks IH]; intros setup w.
  - cbn. unfold ret. eexists _, _. split; [reflexivity|]. auto.
  - destruct (languageForm_Run_step pick picks picked err setup w)
      as (version & path & probed & w1 & _ & ->).
    match goal with |- context [languageForm_Run _ _ _ picks picked err ?s w1] =>
      destruct (IH s w1) as (setup' & w' & Hrun & Htype & Hversion & Heditors & Hrepo)
    end.
    exists setup', w'. split; [exact Hrun|].
    split; [|split; [exact Hversion|split]].
    + rewrite Htype. destruct picks as [|pick' picks].
      * destruct probed; reflexivity.
      * change (last (pick :: pick' :: picks)) with (last (pick' :: picks)).
        destruct (last (pick' :: picks)) eqn:E; [reflexivity|].
        apply last_None in E. discriminate.
    + rewrite Heditors. destruct probed; reflexivity.
    + rewrite Hrepo. destruct probed; reflexivity.
Qed.

Lemma languageForm_Run_effects (picks : list string) (picked : string)
    (err : option error) (setup : DevSetup) (w : World) :
  exists setup' w' new,
    languageForm_Run host highlight subtle picks picked err setup w
    = Ret ((setup', err), w') /\
    printed w' = printed w /\
    started w' = started w ++ new /\
    length new <= length picks /\
    Forall (fun process => exists name args,
                process.2 = name :: args /\ (name, args) ∈ versionChecks) new.
Proof.
  revert setup w. induction picks as [|pick picks IH]; intros setup w.
  - cbn. unfold ret. eexists _, _, []. split; [reflexivity|].
    rewrite app_nil_r. repeat split; auto.
  - destruct (languageForm_Run_step pick picks picked err setup w)
      as (version & path & probed & w1 & Hprobe & ->).
    destruct (getLanguageVersion_effects _ _ _ _ _ _ _ Hprobe)
      as [Hprinted Hstarted].
    match goal with |- context [languageForm_Run _ _ _ picks picked err ?s w1] =>
      destruct (IH s w1) as (setup' & w' & new & Hrun & Hprinted' & Hstarted' & Hlen & Hall)
    end.
    destruct Hstarted as [[-> _]|(name & args & _ & Hin & Hone)].
    + exists setup', w', new. split; [exact Hrun|].
      split; [exact Hprinted'|]. split; [exact Hstarted'|].
      split; [cbn [length]; lia|exact Hall].
    + exists setup', w', ((exec.Path (exec.Command host name args), name :: args) :: new).
      split; [exact Hrun|]. split; [congruence|].
      split; [rewrite Hstarted', Hone, <- app_assoc; reflexivity|].
      split; [cbn [length]; lia|].
      constructor; [exists name, args; auto|exact Hall].
Qed.

(** [main] in terms of the outcome of the language form. *)
Lemma main_eq (first : LanguageInput) (second : EditorInput) (w : World) :
  exists setup w1,
    languageForm_Run host highlight subtle (languages first) (version first)
      (languageErr first) zeroSetup w = Ret ((setup, languageErr first), w1) /\
    main host highlight subtle headerStyle errorStyle boxStyle EnglishJoin
      first second w
    = Ret (match languageErr first with
           | Some e =>
               (1%Z, {| started := started w1;
                        printed := printed w1
                          ++ [lipgloss.Render errorStyle ("Error: " +:+ Error e)] |})
           | None =>
               if negb (String.eqb (Type_ (Language_ setup)) "")
                  && negb (String.eqb (Version (Language_ setup)) "")
               then match editorErr second with
                    | Some e =>
                        (1%Z, {| started := started w1;
                                 printed := printed w1
                                   ++ [lipgloss.Render errorStyle ("Error: " +:+ Error e)] |})
                    | None =>
                        (0%Z, {| started := started w1;
                                 printed := printed w1
                                   ++ [summary highlight subtle headerStyle boxStyle
                                         EnglishJoin
                                         (setEditors setup (editors second))] |})
                    end
               else (0%Z, {| started := started w1;
                             printed := printed w1
                               ++ [summary highlight subtle headerStyle boxStyle
                                     EnglishJoin setup] |})
           end).
Proof.
  destruct (languageForm_Run_returns host highlight subtle (languages first)
              (version first) (languageErr first) zeroSetup w)
    as (setup & w1 & Hform).
  exists setup, w1. split; [exact Hform|].
  unfold main, bind at 1. rewrite Hform.
  destruct (languageErr first) as [e|]; [reflexivity|].
  unfold bind at 1.
  destruct (negb (Type_ (Language_ setup) =? "")
            && negb (Version (Language_ setup) =? "")); [|reflexivity].
  unfold editorForm_Run, bind at 1, lift, editorOptions.
  rewrite getLanguageEditors_eq. unfold ret at 1.
  destruct (editorErr second); reflexivity.
Qed.

End Forms.

Section Runs.

Variable host : Host.
Variables highlight subtle headerStyle errorStyle boxStyle : lipgloss.Style.
Variable EnglishJoin : list string -> bool -> string.

Lemma languageForm_Run_failed_probes (picks : list string) (picked : string)
    (err : option error) (setup : DevSetup) (w : World) :
  (forall pick w0 version path probed w1,
      pick ∈ picks ->
      getLanguageVersion host pick w0 = Ret ((version, path, probed), w1) ->
      probed <> None) ->
  exists setup' w',
    languageForm_Run host highlight subtle picks picked err setup w
    = Ret ((setup', err), w') /\
    CurrentVer (Language_ setup') = CurrentVer (Language_ setup) /\
    Path (Language_ setup') = Path (Language_ setup).
Proof.
  revert setup w. induction picks as [|pick picks IH]; intros setup w Hfail.
  - cbn. unfold ret. eexists _, _. split; [reflexivity|]. auto.
  - destruct (languageForm_Run_step host highlight subtle pick picks picked err setup w)
      as (version & path & probed & w1 & Hprobe & ->).
    destruct probed as [e|].
    + destruct (IH (setType setup pick) w1) as (setup' & w' & Hrun & Hver & Hpath).
      { intros pick' w0 v p pr w2 Hin. apply Hfail. right. exact Hin. }
      exists setup', w'. split; [exact Hrun|]. rewrite Hver, Hpath. auto.
    + exfalso. apply (Hfail pick w version path None w1); [left|exact Hprobe|reflexivity].
Qed.


(** X13.  Without a language or without a version the editor form is not run:
    what the user would have done in it, an error included, changes
    nothing, the editors stay empty and the program ends with status 0. *)
Theorem editor_form_is_skipped
    (first : LanguageInput) (second other : EditorInput) (w : World) :
  languageErr first = None ->
  negb (String.eqb (default "" (last (languages first))) "")
  && negb (String.eqb (version first) "") = false ->
  main host highlight subtle headerStyle errorStyle boxStyle EnglishJoin
    first second w
  = main host highlight subtle headerStyle errorStyle boxStyle EnglishJoin
      first other w
  /\ exists setup w1,
       Editors (Language_ setup) = [] /\
       main host highlight subtle headerStyle errorStyle boxStyle EnglishJoin
         first second w
       = Ret (0%Z, {| started := started w1;
                      printed := printed w1
                        ++ [summary highlight subtle headerStyle boxStyle
                              EnglishJoin setup] |}).
Proof.
  intros Hok Hskip.
  destruct (languageForm_Run_fields host highlight subtle (languages first)
              (version first) (languageErr first) zeroSetup w)
    as (setup' & w1' & Hform' & Htype & Hversion & Heditors & _).
  assert (Hmain : forall input,
    main host highlight subtle headerStyle errorStyle boxStyle EnglishJoin
      first input w
    = Ret (0%Z, {| started := started w1';
                   printed := printed w1'
                     ++ [summary highlight subtle headerStyle boxStyle
                           EnglishJoin setup'] |})).
  { intros input.
    destruct (main_eq host highlight subtle headerStyle errorStyle boxStyle
                EnglishJoin first input w) as (setup & w1 & Hform & ->).
    rewrite Hform in Hform'. injection Hform' as <- <-.
    rewrite Hok, Htype, Hversion. cbn [zeroSetup Language_ Type_].
    rewrite Hskip. reflexivity. }
  split; [rewrite !Hmain; reflexivity|].
  exists setup', w1'. split; [rewrite Heditors; reflexivity|apply Hmain].
Qed.


(** X15.  The only processes [main] ever starts are the five version checks,
    each with the program name as argument 0, and at most one for each
    value that the language select takes. *)
Theorem main_only_starts_version_checks
    (first : LanguageInput) (second : EditorInput) (w : World) :
  exists code w' new,
    main host highlight subtle headerStyle errorStyle boxStyle EnglishJoin
      first second w = Ret (code, w') /\
    started w' = started w ++ new /\
    length new <= length (languages first) /\
    Forall (fun process => exists name args,
                process.2 = name :: args /\ (name, args) ∈ versionChecks) new.
Proof.
  destruct (main_eq host highlight subtle headerStyle errorStyle boxStyle EnglishJoin
              first second w) as (setup & w1 & Hform & ->).
  destruct (languageForm_Run_effects host highlight subtle (languages first)
              (version first) (languageErr first) zeroSetup w)
    as (setup' & w1' & new & Hform' & _ & Hstarted & Hlen & Hall).
  rewrite Hform in Hform'. injection Hform' as <- <-.
  destruct (languageErr first) as [e|];
    [|destruct (negb (Type_ (Language_ setup) =? "")
                && negb (Version (Language_ setup) =? ""));
      [destruct (editorErr second)|]];
    (eexists _, _, new; split; [reflexivity|]; cbn [started]; auto).
Qed.

(** X16.  When the probe of every value that the language select takes fails and
    both forms are submitted, the program ends with status 0 and the one
    line it prints is the summary of language, version and editors, with
    no line about a previous version. *)
Theorem failed_probes_leave_no_previous_version
    (first : LanguageInput) (second : EditorInput) (w : World) :
  languageErr first = None ->
  editorErr second = None ->
  (forall pick w0 version path probed w1,
      pick ∈ languages first ->
      getLanguageVersion host pick w0 = Ret ((version, path, probed), w1) ->
      probed <> None) ->
  exists w',
    main host highlight subtle headerStyle errorStyle boxStyle EnglishJoin
      first second w = Ret (0%Z, w') /\
    printed w' = printed w ++
      [lipgloss.Render boxStyle
         (lipgloss.Render headerStyle "DEV ENVIRONMENT SETUP COMPLETE"
          +:+ newline +:+ newline +:+ "Language: "
          +:+ lipgloss.Render highlight (default "" (last (languages first)))
          +:+ newline +:+ "Version: " +:+ lipgloss.Render highlight (version first)
          +:+ newline +:+ "Editors: "
          +:+ lipgloss.Render highlight
                (EnglishJoin
                   (if negb (String.eqb (default "" (last (languages first))) "")
                       && negb (String.eqb (version first) "")
                    then editors second else []) true))].
Proof.
  intros Hfirst Hsecond Hfail.
  destruct (main_eq host highlight subtle headerStyle errorStyle boxStyle EnglishJoin
              first second w) as (setup & w1 & Hform & ->).
  destruct (languageForm_Run_fields host highlight subtle (languages first)
              (version first) (languageErr first) zeroSetup w)
    as (setup1 & w2 & Hform1 & Htype & Hversion & Heditors & _).
  destruct (languageForm_Run_effects host highlight subtle (languages first)
              (version first) (languageErr first) zeroSetup w)
    as (setup2 & w3 & new & Hform2 & Hprinted & _).
  destruct (languageForm_Run_failed_probes (languages first) (version first)
              (languageErr first) zeroSetup w Hfail)
    as (setup3 & w4 & Hform3 & Hcurrent & _).
  rewrite Hform in Hform1, Hform2, Hform3.
  injection Hform1 as <- <-. injection Hform2 as <- <-. injection Hform3 as <- _.
  cbn [zeroSetup Language_ Type_ Editors CurrentVer] in *.
  rewrite Hfirst, Hsecond, Htype, Hversion.
  destruct (negb (default "" (last (languages first)) =? "")
            && negb (version first =? ""));
    (eexists; split; [reflexivity|]; cbn [printed]; rewrite Hprinted;
     unfold summary; cbn [setEditors Language_ Type_ Version Editors CurrentVer];
     rewrite ?Hcurrent, ?Htype, ?Hversion, ?Heditors; reflexivity).
Qed.

(** X17.  The current version and the path that the language form leaves in the
    setup are the ones it started with, or the version and the path that a
    successful probe of one of the values of the select returned. *)
Theorem stored_version_comes_from_a_probe
    (picks : list string) (picked : string) (err : option error)
    (setup : DevSetup) (w : World) :
  exists setup' w',
    languageForm_Run host highlight subtle picks picked err setup w
    = Ret ((setup', err), w') /\
    ((CurrentVer (Language_ setup') = CurrentVer (Language_ setup) /\
      Path (Language_ setup') = Path (Language_ setup))
     \/ exists pick w0 w1,
          pick ∈ picks /\
          getLanguageVersion host pick w0
          = Ret ((CurrentVer (Language_ setup'), Path (Language_ setup'), None), w1)).
Proof.
  revert setup w. induction picks as [|pick picks IH]; intros setup w.
  - cbn. unfold ret. eexists _, _. split; [reflexivity|]. left. auto.
  - destruct (languageForm_Run_step host highlight subtle pick picks picked err setup w)
      as (version & path & probed & w1 & Hprobe & ->).
    match goal with |- context [languageForm_Run _ _ _ picks picked err ?s w1] =>
      destruct (IH s w1) as (setup' & w' & Hrun & Hcases)
    end.
    exists setup', w'. split; [exact Hrun|].
    destruct Hcases as [[Hver Hpath]|(pick' & w0 & w2 & Hin & Hprobe')].
    + destruct probed as [e|].
      * left. rewrite Hver, Hpath. auto.
      * right. exists pick, w, w1. split; [left|].
        rewrite Hver, Hpath. exact Hprobe.
    + right. exists pick', w0, w2. split; [right; exact Hin|exact Hprobe'].
Qed.

Lemma noteTitle_found
    (setup : DevSetup) (version path : string) (w w' : World) :
  getLanguageVersion host (Type_ (Language_ setup)) w
  = Ret ((version, path, None), w') ->
  noteTitle host highlight subtle setup w
  = Ret ((setFound setup version path,
          lipgloss.Render highlight
            ("Found " +:+ Type_ (Language_ setup) +:+ " installation:")), w').
Proof.
  intros Hprobe. unfold noteTitle, bind. rewrite Hprobe. reflexivity.
Qed.

(** X18.  When the version check of a supported language runs without
    error and prints nothing but white space, the probe succeeds with an
    empty version: the title closure answers "Found ... installation:"
    and stores the path, and yet the description reads "You can proceed
    with a fresh installation" and the summary has no line about a
    previous version, as if nothing had been found. *)
Theorem blank_output_reads_as_fresh
    (setup : DevSetup) (name path out : string) (args : list string)
    (w w' : World) :
  versionCheck (normalize (Type_ (Language_ setup))) = Some (name, args) ->
  exec.LookPath host (exec.Path (exec.Command host name args)) = (path, None) ->
  exec.Run host (exec.Command host name args) w = Ret ((out, None), w') ->
  strings.TrimSpace out = "" ->
  noteTitle host highlight subtle setup w
  = Ret ((setFound setup "" path,
          lipgloss.Render highlight
            ("Found " +:+ Type_ (Language_ setup) +:+ " installation:")), w') /\
  noteDescription highlight subtle (setFound setup "" path)
  = lipgloss.Render subtle "You can proceed with a fresh installation" /\
  summary highlight subtle headerStyle boxStyle EnglishJoin (setFound setup "" path)
  = lipgloss.Render boxStyle
      (lipgloss.Render headerStyle "DEV ENVIRONMENT SETUP COMPLETE"
       +:+ newline +:+ newline +:+ "Language: "
       +:+ lipgloss.Render highlight (Type_ (Language_ setup))
       +:+ newline +:+ "Version: "
       +:+ lipgloss.Render highlight (Version (Language_ setup))
       +:+ newline +:+ "Editors: "
       +:+ lipgloss.Render highlight (EnglishJoin (Editors (Language_ setup)) true)).
Proof.
  intros Hcheck Hlook Hrun Hblank.
  split; [|split; reflexivity].
  apply noteTitle_found.
  rewrite getLanguageVersion_eq, Hcheck. cbn zeta. rewrite Hlook, Hrun, Hblank.
  unfold versionOf.
  destruct (String.eqb (normalize (Type_ (Language_ setup))) "Python");
    [reflexivity|].
  destruct (String.eqb (normalize (Type_ (Language_ setup))) "JavaScript");
    reflexivity.
Qed.

End Runs.

Lemma editor_form_is_skipped_witness :
  main bareHost plain plain plain plain plain commaJoin
    {| languages := ["Go 🚀"]; version := ""; languageErr := None |}
    {| editors := ["GoLand"]; editorErr := Some (errorString "user aborted") |}
    emptyWorld
  = main bareHost plain plain plain plain plain commaJoin
      {| languages := ["Go 🚀"]; version := ""; languageErr := None |}
      {| editors := []; editorErr := None |}
      emptyWorld.
Proof.
  apply (editor_form_is_skipped bareHost plain plain plain plain plain commaJoin
           {| languages := ["Go 🚀"]; version := ""; languageErr := None |}
           {| editors := ["GoLand"]; editorErr := Some (errorString "user aborted") |}
           {| editors := []; editorErr := None |}
           emptyWorld); reflexivity.
Defined.


Lemma failed_probes_leave_no_previous_version_witness :
  exists w',
    main bareHost plain plain plain plain plain commaJoin
      {| languages := ["Python 🐍"; "Go 🚀"]; version := "1.22.0 (Latest)";
         languageErr := None |}
      {| editors := ["Neovim"; "GoLand"]; editorErr := None |} emptyWorld
    = Ret (0%Z, w') /\
    printed w' =
      ["DEV ENVIRONMENT SETUP COMPLETE" +:+ newline +:+ newline
       +:+ "Language: Go 🚀" +:+ newline
       +:+ "Version: 1.22.0 (Latest)" +:+ newline
       +:+ "Editors: Neovim, GoLand"].
Proof.
  apply (failed_probes_leave_no_previous_version
           bareHost plain plain plain plain plain commaJoin
           {| languages := ["Python 🐍"; "Go 🚀"]; version := "1.22.0 (Latest)";
              languageErr := None |}
           {| editors := ["Neovim"; "GoLand"]; editorErr := None |} emptyWorld).
  - reflexivity.
  - reflexivity.
  - intros pick w0 version path probed w1 Hin Hprobe.
    cbn [languages] in Hin. rewrite !elem_of_cons, elem_of_nil in Hin.
    destruct Hin as [->|[->|[]]]; cbv in Hprobe;
      injection Hprobe as _ _ <- _; discriminate.
Defined.

Lemma blank_output_reads_as_fresh_witness :
  noteTitle (installedHost newline) plain plain (setType zeroSetup "Go 🚀") emptyWorld
  = Ret ((setFound (setType zeroSetup "Go 🚀") "" "/usr/bin/go",
          "Found Go 🚀 installation:"),
         {| started := [("/usr/bin/go", ["go"; "version"])]; printed := [] |})
  /\ noteDescription plain plain (setFound (setType zeroSetup "Go 🚀") "" "/usr/bin/go")
     = "You can proceed with a fresh installation".
Proof.
  destruct (blank_output_reads_as_fresh (installedHost newline)
              plain plain plain plain commaJoin
              (setType zeroSetup "Go 🚀") "go" "/usr/bin/go" newline ["version"]
              emptyWorld
              {| started := [("/usr/bin/go", ["go"; "version"])]; printed := [] |}
              eq_refl eq_refl eq_refl eq_refl) as (Htitle & Hdescription & _).
  split; [exact Htitle|exact Hdescription].
Defined.

Lemma version_options_mirror_catalog_witness :
  versionOptions (setType zeroSetup "Ruby 💎") = Ret [].
Proof.
  destruct (version_options_mirror_catalog (setType zeroSetup "Ruby 💎"))
    as (labels & options & _ & Hoptions & _ & _ & _ & _ & Hempty).
  rewrite Hoptions, Hempty; reflexivity.
Defined.


Section Summary.

Variable host : Host.
Variables highlight subtle headerStyle errorStyle boxStyle : lipgloss.Style.
Variable EnglishJoin : list string -> bool -> string.



End Summary.

